(** * clinicaltrials_ai: the function-calling chat loop of [app.py]

    A shallow embedding of [src/app.py]: the three handlers of
    [ClinicalFunctions] ([save_csv], [study_search], [get_field_info]), the
    registry [function_map], and the chat turn with its dispatch loop.

    Python values are the JSON-shaped values the handlers exchange with the
    chat model and with clinicaltrials.gov.  Library calls whose code is not in
    the repository ([requests.get], [response.json], [json.loads],
    [json.dumps], [repr], [open], [f.write], [os.getcwd], [os.getenv] and the
    chat model)
    are parameters of the development; everything the repository itself
    computes is defined here and runs. *)

From Stdlib Require Import ZArith String Ascii List.
From stdpp Require Import base strings list gmap pretty.

Set Default Proof Using "Type".
Set Warnings "-register-all".
Local Open Scope Z_scope.

(** ** Python strings: [str.replace] and [str.split] *)

Module Str.

(** [replace_from old new s skip] scans [s] left to right; [skip] counts the
    characters of a matched occurrence of [old] that are still to be
    dropped.  [old] is not empty (the only call site passes one space). *)
Fixpoint replace_from (old new s : string) (skip : nat) : string :=
  match s with
  | EmptyString => EmptyString
  | String c s' =>
      match skip with
      | S k => replace_from old new s' k
      | O =>
          if String.prefix old s
          then new +:+ replace_from old new s' (String.length old - 1)
          else String c (replace_from old new s' 0)
      end
  end.

(** [s.replace(old, new)] *)
Definition replace (s old new : string) : string := replace_from old new s 0.

(** [split_from sep s skip cur]: [cur] is the piece being read.  [sep] is
    not empty (the only call site passes one comma). *)
Fixpoint split_from (sep s : string) (skip : nat) (cur : string) : list string :=
  match s with
  | EmptyString => [cur]
  | String c s' =>
      match skip with
      | S k => split_from sep s' k cur
      | O =>
          if String.prefix sep s
          then cur :: split_from sep s' (String.length sep - 1) EmptyString
          else split_from sep s' 0 (cur +:+ String c EmptyString)
      end
  end.

(** [s.split(sep)] *)
Definition split (s sep : string) : list string := split_from sep s 0 EmptyString.

(** [str(n)] for an [int]. *)
Definition of_int (n : Z) : string := pretty n.

(** [needle in s] *)
Definition contains (needle s : string) : Prop :=
  ∃ before after, s = before +:+ needle +:+ after.

End Str.

(** ** Python values *)

(** The values that travel through the handlers: what [json.loads] and
    [response.json()] produce and what [json.dumps] accepts.  A [dict] keeps
    its insertion order, as CPython's does; a [float] is carried by its
    [repr]. *)
Inductive pyval : Type :=
| PNone
| PBool (b : bool)
| PInt (n : Z)
| PFloat (repr : string)
| PStr (s : string)
| PList (l : list pyval)
| PDict (d : list (string * pyval)).

Abbreviation pydict := (list (string * pyval)).

(** [type(v).__name__] *)
Definition type_name (v : pyval) : string :=
  match v with
  | PNone => "NoneType"
  | PBool _ => "bool"
  | PInt _ => "int"
  | PFloat _ => "float"
  | PStr _ => "str"
  | PList _ => "list"
  | PDict _ => "dict"
  end.

(** [d.get(k)]: the value stored under [k], if any. *)
Fixpoint dict_get (k : string) (d : pydict) : option pyval :=
  match d with
  | [] => None
  | (k', v) :: d' => if decide (k = k') then Some v else dict_get k d'
  end.

(** [d[k] = v]: an existing key keeps its position, a new key goes last. *)
Fixpoint dict_set (k : string) (v : pyval) (d : pydict) : pydict :=
  match d with
  | [] => [(k, v)]
  | (k', v') :: d' =>
      if decide (k = k') then (k', v) :: d' else (k', v') :: dict_set k v d'
  end.

(** ** Exceptions and results *)

(** The subclasses of [Exception] that the modelled code can meet.  Each one
    carries what [str(e)] is built from. *)
Inductive exn : Type :=
| KeyError (key : string)
| TypeError (msg : string)
| AttributeError (msg : string)
| StopIteration
| LibraryError (cls msg : string).

Inductive result (A : Type) : Type :=
| Ok (a : A)
| Raise (e : exn).
Arguments Ok {A} a.
Arguments Raise {A} e.

#[global] Instance result_ret : MRet result := λ A a, Ok a.
#[global] Instance result_bind : MBind result := λ A B f r,
  match r with
  | Ok a => f a
  | Raise e => Raise e
  end.

(** ** Subscripting and iteration *)

(** [v[k]] for a string key [k]: only a [dict] that has the key answers. *)
Definition getitem (v : pyval) (k : string) : result pyval :=
  match v with
  | PDict d =>
      match dict_get k d with
      | Some x => Ok x
      | None => Raise (KeyError k)
      end
  | PList _ => Raise (TypeError "list indices must be integers or slices, not str")
  | PStr _ => Raise (TypeError "string indices must be integers, not 'str'")
  | _ => Raise (TypeError ("'" +:+ type_name v +:+ "' object is not subscriptable"))
  end.

(** [v[k1][k2]...[kn]] *)
Fixpoint get_path (v : pyval) (path : list string) : result pyval :=
  match path with
  | [] => Ok v
  | k :: path' => x ← getitem v k; get_path x path'
  end.

(** The items that [for x in v] visits. *)
Definition py_iter (v : pyval) : result (list pyval) :=
  match v with
  | PList l => Ok l
  | PDict d => Ok ((λ kv, PStr kv.1) <$> d)
  | PStr s => Ok ((λ c, PStr (String c EmptyString)) <$> list_ascii_of_string s)
  | _ => Raise (TypeError ("'" +:+ type_name v +:+ "' object is not iterable"))
  end.

(** ** The outside world *)

(** What [requests.get] hands back: the status code and what
    [response.json()] gives (it raises on a body that is not JSON). *)
Record Response : Type := {
  status_code : Z;
  json : result pyval
}.

(** [response.additional_kwargs["function_call"]] *)
Record FunctionCall : Type := {
  name : string;
  arguments : string
}.

(** A completed answer of the chat model. *)
Record AIMessage : Type := {
  content : string;
  function_call : option FunctionCall
}.

(** The entries of [st.session_state.messages]. *)
Inductive Message : Type :=
| ChatMessage (role content : string)
| FunctionMessage (name content : string).

(** The mutable state a turn can touch: the transcript, the files below the
    working directory (keyed by the path given to [open]) and the number of
    HTTP requests issued so far. *)
Record World : Type := {
  messages : list Message;
  files : gmap string string;
  requests_made : nat
}.

(** Computations that read and write the world and may raise. *)
Definition M (A : Type) : Type := World → result A * World.

#[global] Instance M_ret : MRet M := λ A a w, (Ok a, w).
#[global] Instance M_bind : MBind M := λ A B f m w,
  match m w with
  | (Ok a, w') => f a w'
  | (Raise e, w') => (Raise e, w')
  end.

Definition lift {A} (r : result A) : M A := λ w, (r, w).
Definition raise {A} (e : exn) : M A := lift (Raise e).

(** The world after the messages [ms] have been appended to the transcript. *)
Definition with_messages (ms : list Message) (w : World) : World :=
  {| messages := messages w ++ ms;
     files := files w;
     requests_made := requests_made w |}.

(** [st.session_state.messages.append(m)] *)
Definition append_message (m : Message) : M unit := λ w,
  (Ok tt, with_messages [m] w).

(** ** StreamHandler *)

Module StreamHandler.

(** The callback object: [container] lists the texts handed to
    [container.markdown], oldest first (the placeholder shows the last one);
    [text] is the buffer. *)
Record t : Type := {
  container : list string;
  text : string
}.

(** [StreamHandler(st.empty(), initial_text)] *)
Definition init (initial_text : string) : t :=
  {| container := []; text := initial_text |}.

(** [self.text += token; self.container.markdown(self.text)] *)
Definition on_llm_new_token (self : t) (token : string) : t :=
  let text' := text self +:+ token in
  {| container := container self ++ [text']; text := text' |}.

(** The callback run on the tokens of one answer, in their order. *)
Definition stream (self : t) (tokens : list string) : t :=
  foldl on_llm_new_token self tokens.

End StreamHandler.

(** ** Stand-ins for the library, used by the examples *)

Module Mock.

Definition dq : string := String (ascii_of_nat 34) EmptyString.

(** [repr] on values whose strings need no escaping. *)
Fixpoint repr (v : pyval) : string :=
  match v with
  | PNone => "None"
  | PBool true => "True"
  | PBool false => "False"
  | PInt n => pretty n
  | PFloat r => r
  | PStr s => "'" +:+ s +:+ "'"
  | PList l =>
      "[" +:+ (fix items (l : list pyval) : string :=
                 match l with
                 | [] => EmptyString
                 | x :: l' =>
                     repr x +:+ match l' with
                                | [] => EmptyString
                                | _ => ", " +:+ items l'
                                end
                 end) l +:+ "]"
  | PDict d =>
      "{" +:+ (fix items (d : pydict) : string :=
                 match d with
                 | [] => EmptyString
                 | (k, x) :: d' =>
                     "'" +:+ k +:+ "': " +:+ repr x
                     +:+ match d' with
                         | [] => EmptyString
                         | _ => ", " +:+ items d'
                         end
                 end) d +:+ "}"
  end.

(** [json.dumps] on values whose strings need no escaping. *)
Fixpoint dumps (v : pyval) : string :=
  match v with
  | PNone => "null"
  | PBool true => "true"
  | PBool false => "false"
  | PInt n => pretty n
  | PFloat r => r
  | PStr s => dq +:+ s +:+ dq
  | PList l =>
      "[" +:+ (fix items (l : list pyval) : string :=
                 match l with
                 | [] => EmptyString
                 | x :: l' =>
                     dumps x +:+ match l' with
                                 | [] => EmptyString
                                 | _ => ", " +:+ items l'
                                 end
                 end) l +:+ "]"
  | PDict d =>
      "{" +:+ (fix items (d : pydict) : string :=
                 match d with
                 | [] => EmptyString
                 | (k, x) :: d' =>
                     dq +:+ k +:+ dq +:+ ": " +:+ dumps x
                     +:+ match d' with
                         | [] => EmptyString
                         | _ => ", " +:+ items d'
                         end
                 end) d +:+ "}"
  end.

Definition not_json : exn :=
  LibraryError "JSONDecodeError" "Expecting value: line 1 column 1 (char 0)".

(** [json.loads] on the two texts the examples send: the empty object, and
    an opening brace alone, which is not JSON. *)
Definition loads (s : string) : result pyval :=
  if decide (s = "{}") then Ok (PDict [])
  else if decide (s = "{") then
    Raise (LibraryError "JSONDecodeError"
             "Expecting property name enclosed in double quotes: line 1 column 2 (char 1)")
  else Raise not_json.

Definition study (title nct_id : string) : pyval :=
  PDict [("protocolSection",
          PDict [("identificationModule",
                  PDict [("nctId", PStr nct_id); ("briefTitle", PStr title)])])].

Definition three_studies : list pyval :=
  [study "Aspirin in Asthma" "NCT1";
   study "Inhaler Trial" "NCT2";
   study "Sleep and Exhaustion" "NCT3"].

(** A service that is up: the search endpoint lists three studies, the record
    endpoint knows them by their identifiers and answers 404 for the rest. *)
Definition online (n : nat) (url : string) (params : option pydict) : result Response :=
  if decide (url = "https://www.clinicaltrials.gov/api/v2/studies") then
    Ok {| status_code := 200; json := Ok (PDict [("studies", PList three_studies)]) |}
  else if decide (url = "https://www.clinicaltrials.gov/api/v2/studies/NCT1") then
    Ok {| status_code := 200; json := Ok (study "Aspirin in Asthma" "NCT1") |}
  else if decide (url = "https://www.clinicaltrials.gov/api/v2/studies/NCT2") then
    Ok {| status_code := 200; json := Ok (study "Inhaler Trial" "NCT2") |}
  else if decide (url = "https://www.clinicaltrials.gov/api/v2/studies/NCT3") then
    Ok {| status_code := 200; json := Ok (study "Sleep and Exhaustion" "NCT3") |}
  else
    Ok {| status_code := 404; json := Raise not_json |}.

(** A service that is down: every request is answered 503. *)
Definition offline (n : nat) (url : string) (params : option pydict) : result Response :=
  Ok {| status_code := 503; json := Raise not_json |}.

(** Every file can be opened for writing. *)
Definition writable (path : string) : option exn := None.

(** Every write goes through. *)
Definition accepts (path text : string) : option (exn * string) := None.

(** The device is full: the file opens, and no write reaches it. *)
Definition full_disk (path text : string) : option (exn * string) :=
  Some (LibraryError "OSError" "[Errno 28] No space left on device", EmptyString).

(** The record of [NCT1] is served; every other body is not JSON. *)
Definition garbled (n : nat) (url : string) (params : option pydict) : result Response :=
  if decide (url = "https://www.clinicaltrials.gov/api/v2/studies/NCT1") then
    Ok {| status_code := 200; json := Ok (study "Aspirin in Asthma" "NCT1") |}
  else
    Ok {| status_code := 200; json := Raise not_json |}.

(** No file can. *)
Definition read_only (path : string) : option exn :=
  Some (LibraryError "PermissionError"
          ("[Errno 13] Permission denied: '" +:+ path +:+ "'")).

Definition cwd : string := "/home/app".

Definition fresh : World := {| messages := []; files := ∅; requests_made := 0 |}.

Definition greeted : World :=
  {| messages := [ChatMessage "assistant" "How can I help you?"];
     files := ∅;
     requests_made := 0 |}.

Definition calls (function_name args : string) : AIMessage :=
  {| content := EmptyString;
     function_call := Some {| name := function_name; arguments := args |} |}.

Definition says (text : string) : AIMessage :=
  {| content := text; function_call := None |}.


(** An entry of the search answer that has no brief title. *)
Definition untitled (nct_id : string) : pyval :=
  PDict [("protocolSection",
          PDict [("identificationModule", PDict [("nctId", PStr nct_id)])])].

(** A search answer whose second entry has no brief title. *)
Definition ragged (n : nat) (url : string) (params : option pydict) : result Response :=
  Ok {| status_code := 200;
        json := Ok (PDict [("studies",
                            PList [study "Aspirin in Asthma" "NCT1";
                                   untitled "NCT2";
                                   study "Sleep and Exhaustion" "NCT3"])]) |}.

(** A 200 answer whose document is an error report, without [studies]. *)
Definition apologetic (n : nat) (url : string) (params : option pydict) : result Response :=
  Ok {| status_code := 200;
        json := Ok (PDict [("message", PStr "query not understood")]) |}.

Definition design : pyval := PDict [("studyType", PStr "INTERVENTIONAL")].

(** Every record has a design module and nothing else. *)
Definition designed (n : nat) (url : string) (params : option pydict) : result Response :=
  Ok {| status_code := 200;
        json := Ok (PDict [("protocolSection", PDict [("designModule", design)])]) |}.

Definition no_route : exn :=
  LibraryError "ConnectionError" "Failed to establish a new connection".

(** The network is down: every request raises. *)
Definition unreachable (n : nat) (url : string) (params : option pydict) : result Response :=
  Raise no_route.

End Mock.

(** ** The application *)

Section App.

(** [requests.get(url, params=params)]: the answer to the [n]-th request of
    the session, or the exception the transport raises. *)
Variable requests_get : nat → string → option pydict → result Response.
(** [repr(v)] *)
Variable py_repr : pyval → string.
(** [open(path, 'w')]: [None] when the file opens (and is truncated), or the
    exception [open] raises for that path. *)
Variable open_error : string → option exn.
(** [f.write(text)] and the closing of the file opened at [path]: [None]
    when both succeed, or the exception raised (an encoding error of the
    text, a device error) with what has reached the file by then. *)
Variable write_failure : string → string → option (exn * string).
(** [os.getcwd()] *)
Variable getcwd : string.

(** [str(v)]: a [str] is itself, every other value prints as its [repr]. *)
Definition py_str (v : pyval) : string :=
  match v with
  | PStr s => s
  | _ => py_repr v
  end.

(** [str(e)] *)
Definition str_exn (e : exn) : string :=
  match e with
  | KeyError k => py_repr (PStr k)
  | TypeError msg => msg
  | AttributeError msg => msg
  | StopIteration => EmptyString
  | LibraryError _ msg => msg
  end.

(** The world after [n] more requests. *)
Definition count_requests (n : nat) (w : World) : World :=
  {| messages := messages w;
     files := files w;
     requests_made := n + requests_made w |}.

Definition http_get (url : string) (params : option pydict) : M Response := λ w,
  (requests_get (requests_made w) url params, count_requests 1 w).

(** The world after [path] has been written with [text]. *)
Definition with_file (path text : string) (w : World) : World :=
  {| messages := messages w;
     files := <[path := text]> (files w);
     requests_made := requests_made w |}.

Definition write_file (path text : string) : M unit := λ w,
  (Ok tt, with_file path text w).

(** *** save_csv *)

(** What [title + ".csv"] raises when [title] is not a [str]. *)
Definition concat_error (title : pyval) : exn :=
  match title with
  | PList _ =>
      TypeError ("can only concatenate list (not "
                 +:+ String (ascii_of_nat 34) "str"
                 +:+ String (ascii_of_nat 34) ") to list")
  | _ =>
      TypeError ("unsupported operand type(s) for +: '"
                 +:+ type_name title +:+ "' and 'str'")
  end.

(** [f.write(text)] on the file just opened at [path], up to its closing. *)
Definition file_write (path : string) (text : pyval) : M unit :=
  match text with
  | PStr s =>
      match write_failure path s with
      | None => write_file path s
      | Some (e, written) => write_file path written;; raise e
      end
  | PNone => raise (TypeError "write() argument must be str, not None")
  | _ => raise (TypeError ("write() argument must be str, not " +:+ type_name text))
  end.

(** The body of the [try]: open (which truncates), write, close, build the
    message. *)
Definition save_csv_try (text title : pyval) : M pyval :=
  match title with
  | PStr t =>
      let path := t +:+ ".csv" in
      match open_error path with
      | Some e => raise e
      | None =>
          write_file path EmptyString;;
          file_write path text;;
          mret (PStr ("Saved to:" +:+ getcwd +:+ "/" +:+ t +:+ ".csv"))
      end
  | _ => raise (concat_error title)
  end.

Definition save_csv (text title : pyval) : M pyval := λ w,
  match save_csv_try text title w with
  | (Ok v, w') => (Ok v, w')
  | (Raise e, w') => (Ok (PStr ("Error saving file: " +:+ str_exn e)), w')
  end.

(** *** study_search *)

Definition identification (study : pyval) (key : string) : result pyval :=
  get_path study ["protocolSection"; "identificationModule"; key].

(** The [for study in study_data] loop with its two accumulators. *)
Fixpoint collect_studies (study_data study_names nct_ids : list pyval)
  : result (list pyval * list pyval) :=
  match study_data with
  | [] => Ok (study_names, nct_ids)
  | study :: rest =>
      title ← identification study "briefTitle";
      nct ← identification study "nctId";
      collect_studies rest (study_names ++ [title]) (nct_ids ++ [nct])
  end.

Definition search_url : string := "https://www.clinicaltrials.gov/api/v2/studies".

Definition search_params (query_term pageSize : pyval) : pydict :=
  [("format", PStr "json");
   ("query.parser", PStr "advanced");
   ("query.term", query_term);
   ("pageSize", pageSize)].

Definition study_search (query_term pageSize : pyval) : M pyval :=
  let url := search_url in
  let params := search_params query_term pageSize in
  response ← http_get url (Some params);
  if decide (status_code response = 200) then
    data ← lift (json response);
    study_data ← lift (getitem data "studies");
    studies ← lift (py_iter study_data);
    '(study_names, nct_ids) ← lift (collect_studies studies [] []);
    mret (PDict
            [("Query Term", query_term);
             ("Page Size", pageSize);
             ("Number of Results", PInt (Z.of_nat (length study_names)));
             ("Study Name", PList study_names);
             ("NCT_ID", PList nct_ids)])
  else
    mret (PStr ("Request failed with status code "
                +:+ Str.of_int (status_code response))).

(** *** get_field_info *)

(** [field == s] *)
Definition field_is (field : pyval) (s : string) : bool :=
  match field with
  | PStr f => bool_decide (f = s)
  | _ => false
  end.

(** [try: temp_output = data[k1]...[kn]  except: temp_output = fallback] *)
Definition try_path (data : pyval) (path : list string) (fallback : string) : pyval :=
  match get_path data path with
  | Ok v => v
  | Raise _ => PStr fallback
  end.

Definition invalid_field_message (field : pyval) : string :=
  "Field " +:+ py_str field
  +:+ " is not a valid field. Valid fields are: studyArmsInterventions, patientConditions, studySummary, studyDesign, patientEligibility, organizations, primaryOutcomes, secondaryOutcomes, references, statusDates.".

(** The [if field == ... elif ...] chain run on a fetched document. *)
Definition select_field (field data : pyval) : pyval :=
  if field_is field "interventionAlone" then
    try_path data ["derivedSection"; "interventionBrowseModule"; "browseLeaves"]
      "No interventions found"
  else if field_is field "studyArmsInterventions" then
    try_path data ["protocolSection"; "armsInterventionsModule"; "armGroups"]
      "No arms or interventions found"
  else if field_is field "patientConditions" then
    try_path data ["protocolSection"; "conditionsModule"; "conditions"]
      "No conditions found"
  else if field_is field "studySummary" then
    try_path data ["protocolSection"; "descriptionModule"; "briefSummary"]
      "No brief summary found"
  else if field_is field "studyDesign" then
    try_path data ["protocolSection"; "designModule"]
      "No study design found"
  else if field_is field "patientEligibility" then
    try_path data ["protocolSection"; "eligibilityModule"]
      "No eligibility criteria found"
  else if field_is field "organizations" then
    try_path data ["protocolSection"; "sponsorsCollaboratorsModule"]
      "No organizations found"
  else if field_is field "primaryOutcomes" then
    try_path data ["protocolSection"; "outcomesModule"; "primaryOutcomes"]
      "No primary outcomes found"
  else if field_is field "secondaryOutcomes" then
    try_path data ["protocolSection"; "outcomesModule"; "secondaryOutcomes"]
      "No secondary outcomes found"
  else if field_is field "references" then
    try_path data ["protocolSection"; "referencesModule"; "references"]
      "No references found"
  else if field_is field "statusDates" then
    try_path data ["protocolSection"; "statusModule"]
      "No status dates found"
  else
    PStr (invalid_field_message field).

(** What one answer of the record endpoint turns into. *)
Definition field_output (field : pyval) (response : Response) : result pyval :=
  if decide (status_code response = 200) then
    data ← json response;
    mret (select_field field data)
  else
    mret (PStr ("Request failed with status code "
                +:+ Str.of_int (status_code response))).

Definition record_url (nct_id : string) : string :=
  "https://www.clinicaltrials.gov/api/v2/studies/" +:+ nct_id.

(** The second [for nct_id in nct_ids] loop. *)
Fixpoint fetch_fields (field : pyval) (nct_ids : list string) (data_out : pydict)
  : M pydict :=
  match nct_ids with
  | [] => mret data_out
  | nct_id :: rest =>
      response ← http_get (record_url nct_id) None;
      temp_output ← lift (field_output field response);
      fetch_fields field rest (dict_set nct_id temp_output data_out)
  end.

(** [nct_ids.replace(" ", "").split(",")] *)
Definition split_ids (nct_ids : string) : list string :=
  Str.split (Str.replace nct_ids " " EmptyString) ",".

(** The dictionary before the requests: the two metadata entries, then
    [None] under every identifier. *)
Definition initial_data_out (ids : list string) (field : pyval) : pydict :=
  foldl (λ data_out nct_id, dict_set nct_id PNone data_out)
    [("nct_ids", PList (PStr <$> ids)); ("field", field)] ids.

Definition get_field_info (nct_ids field : pyval) : M pyval :=
  match nct_ids with
  | PStr s =>
      let ids := split_ids s in
      data_out ← fetch_fields field ids (initial_data_out ids field);
      mret (PDict data_out)
  | _ =>
      raise (AttributeError ("'" +:+ type_name nct_ids
                             +:+ "' object has no attribute 'replace'"))
  end.

(** ** Calling a handler with keyword arguments *)

(** A method of [ClinicalFunctions] as [function_map] holds it: already bound
    to [self], with the parameters after [self] and their defaults. *)
Record pyfunction : Type := {
  qualname : string;
  parameters : list (string * option pyval);
  body : (string → pyval) → M pyval
}.

(** The keywords are matched in the order of the [dict]; the first one that
    does not fit decides the error. *)
Fixpoint check_keywords (f : pyfunction) (kwargs : pydict) : result unit :=
  match kwargs with
  | [] => Ok tt
  | (k, _) :: rest =>
      if decide (k = "self") then
        Raise (TypeError (qualname f +:+ "() got multiple values for argument 'self'"))
      else if decide (k ∈ (parameters f).*1) then
        check_keywords f rest
      else
        Raise (TypeError (qualname f +:+ "() got an unexpected keyword argument '"
                          +:+ k +:+ "'"))
  end.

Definition is_missing (kwargs : pydict) (p : string * option pyval) : bool :=
  match p.2, dict_get p.1 kwargs with
  | None, None => true
  | _, _ => false
  end.

Definition missing_arguments (f : pyfunction) (kwargs : pydict) : list string :=
  (List.filter (is_missing kwargs) (parameters f)).*1.

Fixpoint name_list (names : list string) : string :=
  match names with
  | [] => EmptyString
  | [a] => "and '" +:+ a +:+ "'"
  | a :: rest => "'" +:+ a +:+ "', " +:+ name_list rest
  end.

Definition format_missing (names : list string) : string :=
  match names with
  | [a] => "1 required positional argument: '" +:+ a +:+ "'"
  | [a; b] => "2 required positional arguments: '" +:+ a +:+ "' and '" +:+ b +:+ "'"
  | _ =>
      Str.of_int (Z.of_nat (length names))
      +:+ " required positional arguments: " +:+ name_list names
  end.

Fixpoint default_of (p : string) (params : list (string * option pyval)) : pyval :=
  match params with
  | [] => PNone
  | (q, d) :: rest =>
      if decide (p = q) then default PNone d else default_of p rest
  end.

(** A call of [f] with the entries of [kwargs] as keyword arguments, up to
    the entry of the body: the value every parameter is bound to.  The
    script runs as the module [__main__], which the interpreter names in the
    error for arguments that are not a mapping. *)
Definition bind_kwargs (f : pyfunction) (kwargs : pyval) : result (string → pyval) :=
  match kwargs with
  | PDict d =>
      check_keywords f d;;
      match missing_arguments f d with
      | [] => Ok (λ p, default (default_of p (parameters f)) (dict_get p d))
      | missing =>
          Raise (TypeError (qualname f +:+ "() missing " +:+ format_missing missing))
      end
  | _ =>
      Raise (TypeError ("__main__." +:+ qualname f
                        +:+ "() argument after ** must be a mapping, not "
                        +:+ type_name kwargs))
  end.

Definition call_kwargs (f : pyfunction) (kwargs : pyval) : M pyval :=
  args ← lift (bind_kwargs f kwargs);
  body f args.

(** ** The registry *)

Definition study_search_method : pyfunction :=
  {| qualname := "ClinicalFunctions.study_search";
     parameters := [("query_term", Some PNone); ("pageSize", Some (PInt 10))];
     body := λ arg, study_search (arg "query_term") (arg "pageSize") |}.

Definition get_field_info_method : pyfunction :=
  {| qualname := "ClinicalFunctions.get_field_info";
     parameters := [("nct_ids", None); ("field", None)];
     body := λ arg, get_field_info (arg "nct_ids") (arg "field") |}.

Definition save_csv_method : pyfunction :=
  {| qualname := "ClinicalFunctions.save_csv";
     parameters := [("text", Some PNone); ("title", Some PNone)];
     body := λ arg, save_csv (arg "text") (arg "title") |}.

Definition function_map : gmap string pyfunction :=
  <["study_search" := study_search_method]>
    (<["get_field_info" := get_field_info_method]>
       (<["save_csv" := save_csv_method]> ∅)).

(** ** The chat turn *)

(** [json.loads] and [json.dumps] *)
Variable json_loads : string → result pyval.
Variable json_dumps : pyval → string.
(** [os.getenv("OPENAI_API_KEY")] *)
Variable openai_api_key : option string.

(** [function_map[function_name]] *)
Definition lookup_function (function_name : string) : result pyfunction :=
  match function_map !! function_name with
  | Some f => Ok f
  | None => Raise (KeyError function_name)
  end.

(** What [function_response] holds after the [try] around the call and its
    [except Exception as e]. *)
Definition function_response_of (outcome : result pyval) : pyval :=
  match outcome with
  | Ok v => v
  | Raise e => PStr ("Function call failed with error: " +:+ str_exn e)
  end.

Definition try_call (function_to_call : pyfunction) (function_args : pyval)
  : M pyval := λ w,
  let (outcome, w') := call_kwargs function_to_call function_args w in
  (Ok (function_response_of outcome), w').

(** One pass through the body of the [while] loop, up to the next call of
    the chat model. *)
Definition dispatch_round (call : FunctionCall) : M unit :=
  let function_name := name call in
  function_to_call ← lift (lookup_function function_name);
  function_args ← lift (json_loads (arguments call));
  let function_call_message :=
    "Calling function " +:+ function_name
    +:+ " with arguments: " +:+ py_str function_args in
  append_message (ChatMessage "system" function_call_message);;
  function_response ← try_call function_to_call function_args;
  append_message (FunctionMessage function_name (json_dumps function_response)).

(** The [while] loop.  The chat model is scripted: [llm] lists the answers
    it will give to the calls still to come, and a call on an exhausted
    script raises. *)
Fixpoint dispatch_loop (llm : list AIMessage) (response : AIMessage) : M unit :=
  match function_call response with
  | Some call =>
      dispatch_round call;;
      match llm with
      | [] => raise StopIteration
      | next :: llm' => dispatch_loop llm' next
      end
  | None => append_message (ChatMessage "assistant" (content response))
  end.

(** [not openai_api_key] *)
Definition key_missing : bool :=
  match openai_api_key with
  | None => true
  | Some k => bool_decide (k = EmptyString)
  end.

(** The body of [if prompt := st.chat_input():].  Without a key the script
    stops ([st.stop()]) right after recording the prompt. *)
Definition run_turn (llm : list AIMessage) (prompt : string) : M unit :=
  append_message (ChatMessage "user" prompt);;
  if key_missing then mret tt
  else
    match llm with
    | [] => raise StopIteration
    | response :: llm' => dispatch_loop llm' response
    end.

(** ** Vocabulary of the statements *)

(** The eleven recognised field names, each with the path it reads and the
    text it falls back to. *)
Definition field_table : list (string * (list string * string)) :=
  [("interventionAlone",
    (["derivedSection"; "interventionBrowseModule"; "browseLeaves"],
     "No interventions found"));
   ("studyArmsInterventions",
    (["protocolSection"; "armsInterventionsModule"; "armGroups"],
     "No arms or interventions found"));
   ("patientConditions",
    (["protocolSection"; "conditionsModule"; "conditions"],
     "No conditions found"));
   ("studySummary",
    (["protocolSection"; "descriptionModule"; "briefSummary"],
     "No brief summary found"));
   ("studyDesign",
    (["protocolSection"; "designModule"], "No study design found"));
   ("patientEligibility",
    (["protocolSection"; "eligibilityModule"], "No eligibility criteria found"));
   ("organizations",
    (["protocolSection"; "sponsorsCollaboratorsModule"], "No organizations found"));
   ("primaryOutcomes",
    (["protocolSection"; "outcomesModule"; "primaryOutcomes"],
     "No primary outcomes found"));
   ("secondaryOutcomes",
    (["protocolSection"; "outcomesModule"; "secondaryOutcomes"],
     "No secondary outcomes found"));
   ("references",
    (["protocolSection"; "referencesModule"; "references"], "No references found"));
   ("statusDates",
    (["protocolSection"; "statusModule"], "No status dates found"))].

Definition recognized (field : pyval) : Prop :=
  ∃ f, field = PStr f ∧ f ∈ field_table.*1.

(** The document has something at the end of [path]. *)
Definition has_path (doc : pyval) (path : list string) : Prop :=
  ∃ v, get_path doc path = Ok v.

(** Every record request of the batch [ids], issued from request number
    [n0] on, gets an answer, and every 200 answer carries a JSON document. *)
Definition answered (n0 : nat) (ids : list string) : Prop :=
  ∀ i id, ids !! i = Some id →
    ∃ resp, requests_get (n0 + i) (record_url id) None = Ok resp
            ∧ (status_code resp = 200 → ∃ doc, json resp = Ok doc).

(** [i] is the last position of [id] in the batch. *)
Definition last_index (ids : list string) (id : string) (i : nat) : Prop :=
  ids !! i = Some id ∧ ∀ j, (i < j)%nat → ids !! j ≠ Some id.

(** [v] is what the last request for [id] turned into. *)
Definition last_output (field : pyval) (n0 : nat) (ids : list string)
    (id : string) (v : pyval) : Prop :=
  ∃ i resp, last_index ids id i
            ∧ requests_get (n0 + i) (record_url id) None = Ok resp
            ∧ field_output field resp = Ok v.

(** The text of the system notice of a call. *)
Definition call_notice (function_name : string) (function_args : pyval) : Message :=
  ChatMessage "system"
    ("Calling function " +:+ function_name
     +:+ " with arguments: " +:+ py_str function_args).

(** A computation that leaves the transcript alone. *)
Definition keeps_messages {A} (m : M A) : Prop :=
  ∀ w, messages (m w).2 = messages w.

(** What a turn can append after the user message: complete rounds, each a
    call notice followed at once by the function message of a registered
    function, and then at most one assistant message. *)
Inductive turn_tail : list Message → Prop :=
| tail_open : turn_tail []
| tail_answer text : turn_tail [ChatMessage "assistant" text]
| tail_round function_name function_args function_response rest :
    is_Some (function_map !! function_name) →
    turn_tail rest →
    turn_tail (call_notice function_name function_args
               :: FunctionMessage function_name (json_dumps function_response)
               :: rest).

(** An answer of the model that asks for a registered function with
    arguments that parse. *)
Definition well_formed_call (response : AIMessage) : Prop :=
  ∃ call args,
    function_call response = Some call
    ∧ is_Some (function_map !! name call)
    ∧ json_loads (arguments call) = Ok args.

(** An entry of the search answer with both a brief title and an
    identifier. *)
Definition complete_entry (study : pyval) : Prop :=
  ∃ title nct,
    identification study "briefTitle" = Ok title
    ∧ identification study "nctId" = Ok nct.

(** Reading the title, then the identifier, of [study] raises [e]. *)
Definition entry_raises (study : pyval) (e : exn) : Prop :=
  identification study "briefTitle" = Raise e
  ∨ (∃ title, identification study "briefTitle" = Ok title
              ∧ identification study "nctId" = Raise e).

(** The record request number [n] to [url] ends in the exception [e]:
    the transport raises it, or the answer is 200 and its body is not JSON. *)
Definition request_raises (n : nat) (url : string) (e : exn) : Prop :=
  requests_get n url None = Raise e
  ∨ (∃ resp, requests_get n url None = Ok resp
             ∧ status_code resp = 200
             ∧ json resp = Raise e).

(** The number of commas of a string. *)
Definition commas (s : string) : nat :=
  length (filter (λ c, c = ","%char) (list_ascii_of_string s)).

(** * Verification *)

(** ** Strings *)

Lemma append_empty_r s : s +:+ EmptyString = s.
Proof.
  induction s as [|c s IH]; [done|].
  change (String c (s +:+ EmptyString) = String c s). by rewrite IH.
Qed.

(** ** Dictionaries *)

Lemma dict_get_set_eq k v d : dict_get k (dict_set k v d) = Some v.
Proof.
  induction d as [|[k' v'] d IH]; simpl.
  - by rewrite decide_True.
  - destruct (decide (k = k')) as [->|Hne]; simpl.
    + by rewrite decide_True.
    + by rewrite decide_False.
Qed.

Lemma dict_get_set_ne k k' v d : k ≠ k' → dict_get k (dict_set k' v d) = dict_get k d.
Proof.
  intros Hne. induction d as [|[k'' v''] d IH]; simpl.
  - by rewrite decide_False.
  - destruct (decide (k' = k'')) as [->|Hne']; simpl.
    + by rewrite !decide_False.
    + destruct (decide (k = k'')); [done | apply IH].
Qed.

(** ** Running the monad *)

Lemma http_get_run url params w :
  http_get url params w
  = (requests_get (requests_made w) url params, count_requests 1 w).
Proof. reflexivity. Qed.

Lemma bind_run {A B} (m : M A) (f : A → M B) w :
  (m ≫= f) w
  = match m w with
    | (Ok a, w') => f a w'
    | (Raise e, w') => (Raise e, w')
    end.
Proof. reflexivity. Qed.

Lemma count_requests_add n m w :
  count_requests n (count_requests m w) = count_requests (n + m) w.
Proof. unfold count_requests; simpl. f_equal. lia. Qed.

Lemma count_requests_0 w : count_requests 0 w = w.
Proof. by destruct w. Qed.

(** ** study_search *)

Lemma collect_studies_app studies : ∀ titles ids names ncts,
  Forall2 (λ study t, identification study "briefTitle" = Ok t) studies titles →
  Forall2 (λ study i, identification study "nctId" = Ok i) studies ids →
  collect_studies studies names ncts = Ok (names ++ titles, ncts ++ ids).
Proof.
  induction studies as [|study studies IH]; intros titles ids names ncts Ht Hi.
  - apply Forall2_nil_inv_l in Ht as ->. apply Forall2_nil_inv_l in Hi as ->.
    by rewrite !app_nil_r.
  - apply Forall2_cons_inv_l in Ht as (t & titles' & Ht & Hts & ->).
    apply Forall2_cons_inv_l in Hi as (i & ids' & Hi & His & ->).
    cbn [collect_studies]. rewrite Ht, Hi. cbn [mbind result_bind].
    rewrite (IH titles' ids') by done.
    by rewrite <- !app_assoc.
Qed.

(** C5.  On a 200 answer whose [studies] array holds [n] entries, each with a
    brief title and an NCT identifier, [study_search] returns the summary with
    [Number of Results] equal to [n] and with the titles and the identifiers
    in two lists of length [n], in the order of the entries. *)
Theorem study_search_200 query_term pageSize w resp data studies titles ids :
  requests_get (requests_made w) search_url
    (Some (search_params query_term pageSize)) = Ok resp →
  status_code resp = 200 →
  json resp = Ok data →
  getitem data "studies" = Ok (PList studies) →
  Forall2 (λ study t, identification study "briefTitle" = Ok t) studies titles →
  Forall2 (λ study i, identification study "nctId" = Ok i) studies ids →
  study_search query_term pageSize w
  = (Ok (PDict [("Query Term", query_term);
                ("Page Size", pageSize);
                ("Number of Results", PInt (Z.of_nat (length studies)));
                ("Study Name", PList titles);
                ("NCT_ID", PList ids)]),
     count_requests 1 w)
  ∧ length titles = length studies
  ∧ length ids = length studies.
Proof.
  intros Hget Hcode Hjson Hstudies Ht Hi.
  pose proof (Forall2_length _ _ _ Ht) as Hlt.
  pose proof (Forall2_length _ _ _ Hi) as Hli.
  split; [|done].
  unfold study_search. rewrite bind_run, http_get_run, Hget.
  rewrite decide_True by done.
  unfold lift. rewrite bind_run, Hjson, bind_run, Hstudies, bind_run.
  cbn [py_iter]. rewrite bind_run.
  rewrite (collect_studies_app studies titles ids [] []) by done.
  cbn [app]. by rewrite Hlt.
Qed.

(** C8.  On an answer whose status code [c] is not 200, [study_search]
    returns a plain string that contains the decimal digits of [c]; being a
    string, it has no field to look up. *)
Theorem study_search_non_200 query_term pageSize w resp :
  requests_get (requests_made w) search_url
    (Some (search_params query_term pageSize)) = Ok resp →
  status_code resp ≠ 200 →
  ∃ msg,
    study_search query_term pageSize w = (Ok (PStr msg), count_requests 1 w)
    ∧ msg = "Request failed with status code " +:+ Str.of_int (status_code resp)
    ∧ Str.contains (Str.of_int (status_code resp)) msg
    ∧ ∀ k, ∃ e, getitem (PStr msg) k = Raise e.
Proof.
  intros Hget Hcode. eexists. split; [|split; [reflexivity|split]].
  - unfold study_search. rewrite bind_run, http_get_run, Hget.
    by rewrite decide_False.
  - exists "Request failed with status code ", EmptyString.
    by rewrite append_empty_r.
  - intros k. by eexists.
Qed.

(** ** get_field_info: the identifier list *)




(** ** get_field_info: the identifier list in general *)

Lemma append_assoc s1 s2 s3 : (s1 +:+ s2) +:+ s3 = s1 +:+ (s2 +:+ s3).
Proof.
  induction s1 as [|c s1 IH]; [done|].
  change (String c ((s1 +:+ s2) +:+ s3) = String c (s1 +:+ (s2 +:+ s3))).
  by rewrite IH.
Qed.

Lemma chars_append s1 s2 :
  list_ascii_of_string (s1 +:+ s2)
  = list_ascii_of_string s1 ++ list_ascii_of_string s2.
Proof.
  induction s1 as [|c s1 IH]; [done|].
  change (c :: list_ascii_of_string (s1 +:+ s2)
          = c :: (list_ascii_of_string s1 ++ list_ascii_of_string s2)).
  by rewrite IH.
Qed.

Lemma replace_space_cons c s :
  Str.replace (String c s) " " EmptyString
  = if decide (c = " "%char) then Str.replace s " " EmptyString
    else String c (Str.replace s " " EmptyString).
Proof.
  unfold Str.replace. cbn [Str.replace_from String.prefix].
  destruct (ascii_dec " " c) as [<-|Hne].
  - rewrite decide_True by done. by destruct s.
  - by rewrite decide_False by congruence.
Qed.

Lemma replace_space_chars s :
  list_ascii_of_string (Str.replace s " " EmptyString)
  = filter (λ c, c ≠ " "%char) (list_ascii_of_string s).
Proof.
  induction s as [|c s IH]; [done|].
  rewrite replace_space_cons. cbn [list_ascii_of_string].
  destruct (decide (c = " "%char)) as [->|Hne].
  - by rewrite filter_cons_False by (intros Hn; by apply Hn).
  - rewrite filter_cons_True by done. cbn [list_ascii_of_string]. by rewrite IH.
Qed.

Lemma split_comma_cons c s cur :
  Str.split_from "," (String c s) 0 cur
  = if decide (c = ","%char) then cur :: Str.split_from "," s 0 EmptyString
    else Str.split_from "," s 0 (cur +:+ String c EmptyString).
Proof.
  cbn [Str.split_from String.prefix].
  destruct (ascii_dec "," c) as [<-|Hne].
  - rewrite decide_True by done. by destruct s.
  - by rewrite decide_False by congruence.
Qed.



(** Every character of a piece comes from the piece being read or from the
    rest of the string, and is not a comma when it comes from the string. *)
Lemma split_comma_chars (P : ascii → Prop) s : ∀ cur piece,
  Forall P (list_ascii_of_string cur) →
  Forall (λ c, c ≠ ","%char → P c) (list_ascii_of_string s) →
  piece ∈ Str.split_from "," s 0 cur →
  Forall P (list_ascii_of_string piece).
Proof.
  induction s as [|c s IH]; intros cur piece Hcur Hs Hin.
  - apply list_elem_of_singleton in Hin as ->. done.
  - rewrite split_comma_cons in Hin. cbn [list_ascii_of_string] in Hs.
    apply Forall_cons in Hs as [Hc Hs].
    destruct (decide (c = ","%char)) as [->|Hne].
    + apply elem_of_cons in Hin as [->|Hin]; [done|].
      by apply (IH EmptyString piece).
    + apply (IH (cur +:+ String c EmptyString) piece); [|done..].
      rewrite chars_append. apply Forall_app. split; [done|].
      apply Forall_singleton. by apply Hc.
Qed.

(** X19.  No identifier of the batch contains a space or a comma. *)
Lemma split_ids_clean s id :
  id ∈ split_ids s →
  Forall (λ c, c ≠ " "%char ∧ c ≠ ","%char) (list_ascii_of_string id).
Proof.
  unfold split_ids, Str.split. apply split_comma_chars; [done|].
  rewrite replace_space_chars. apply Forall_forall. intros c Hc Hcomma.
  apply list_elem_of_filter in Hc as [Hspace _]. done.
Qed.


(** ** get_field_info: the field chain *)

Lemma field_is_true field s : field_is field s = true → field = PStr s.
Proof.
  destruct field; simpl; try discriminate.
  intros H. apply bool_decide_eq_true in H. by subst.
Qed.

Lemma select_field_table f path fallback data :
  (f, (path, fallback)) ∈ field_table →
  select_field (PStr f) data = try_path data path fallback.
Proof.
  unfold field_table. rewrite !elem_of_cons, elem_of_nil.
  intros H. repeat (destruct H as [H|H]; [by simplify_eq|]). done.
Qed.

Lemma select_field_unrecognized field data :
  ¬ recognized field →
  select_field field data = PStr (invalid_field_message field).
Proof.
  intros Hnot. unfold select_field.
  repeat lazymatch goal with
  | |- (if field_is field ?s then _ else _) = _ =>
      destruct (field_is field s) eqn:Hs;
      [ exfalso; apply Hnot; exists s; split;
        [ by apply field_is_true | unfold field_table; cbn [fmap list_fmap fst]; repeat constructor ] | clear Hs ]
  end.
  reflexivity.
Qed.

Lemma try_path_missing data path fallback :
  ¬ has_path data path → try_path data path fallback = PStr fallback.
Proof.
  intros Hno. unfold try_path.
  destruct (get_path data path) as [v|e] eqn:Hp; [|done].
  exfalso. apply Hno. by exists v.
Qed.

Lemma field_output_200 field resp doc :
  status_code resp = 200 → json resp = Ok doc →
  field_output field resp = Ok (select_field field doc).
Proof.
  intros Hc Hj. unfold field_output. rewrite decide_True by done. by rewrite Hj.
Qed.

(** ** get_field_info: the two loops *)

Lemma initial_data_out_other ids field k :
  k ∉ ids →
  dict_get k (initial_data_out ids field)
  = dict_get k [("nct_ids", PList (PStr <$> ids)); ("field", field)].
Proof.
  unfold initial_data_out.
  generalize [("nct_ids", PList (PStr <$> ids)); ("field", field)].
  induction ids as [|id ids IH]; intros d Hk; [done|].
  apply not_elem_of_cons in Hk as [Hne Hk]. simpl.
  rewrite IH by done. by apply dict_get_set_ne.
Qed.

Lemma last_index_exists (ids : list string) id :
  id ∈ ids → ∃ i, last_index ids id i.
Proof.
  induction ids as [|x ids IH]; intros Hin; [by apply elem_of_nil in Hin|].
  destruct (decide (id ∈ ids)) as [Hrest|Hrest].
  - destruct (IH Hrest) as (i & Hi & Hlast). exists (S i). split; [done|].
    intros [|j] Hj; [lia|]. simpl. apply Hlast. lia.
  - apply elem_of_cons in Hin as [->|]; [|done]. exists 0%nat. split; [done|].
    intros [|j] Hj; [lia|]. simpl. intros Hj'.
    apply Hrest. by eapply list_elem_of_lookup_2.
Qed.

Lemma answered_tail n0 id ids : answered n0 (id :: ids) → answered (S n0) ids.
Proof.
  intros H i id' Hi. destruct (H (S i) id' Hi) as (resp & Hget & Hdoc).
  exists resp. by rewrite Nat.add_succ_r in Hget.
Qed.

Lemma answered_output field n0 i id ids :
  answered n0 ids → ids !! i = Some id →
  ∃ resp v, requests_get (n0 + i) (record_url id) None = Ok resp
            ∧ field_output field resp = Ok v.
Proof.
  intros H Hi. destruct (H i id Hi) as (resp & Hget & Hdoc).
  exists resp. unfold field_output.
  destruct (decide (status_code resp = 200)) as [Hc|Hc].
  - destruct (Hdoc Hc) as [doc ->]. by eexists.
  - by eexists.
Qed.

(** The second loop on an answered batch: it returns, the keys outside the
    batch keep their entries, and every identifier of the batch ends with
    what its last request turned into. *)
Lemma fetch_fields_spec field ids : ∀ d w,
  answered (requests_made w) ids →
  ∃ d', fetch_fields field ids d w = (Ok d', count_requests (length ids) w)
        ∧ (∀ k, k ∉ ids → dict_get k d' = dict_get k d)
        ∧ (∀ id v, last_output field (requests_made w) ids id v →
                   dict_get id d' = Some v).
Proof.
  induction ids as [|id0 ids IH]; intros d w Hans.
  - exists d. simpl. rewrite count_requests_0. split_and!; [done..|].
    intros id v (i & resp & [Hi _] & _). by rewrite lookup_nil in Hi.
  - destruct (answered_output field _ 0 id0 _ Hans eq_refl) as (resp0 & v0 & Hget0 & Hout0).
    rewrite Nat.add_0_r in Hget0.
    destruct (IH (dict_set id0 v0 d) (count_requests 1 w)) as (d' & Hrun & Hother & Hlast).
    { by apply answered_tail in Hans. }
    exists d'. split_and!.
    + cbn [fetch_fields]. rewrite bind_run, http_get_run, Hget0.
      unfold lift at 1. rewrite bind_run, Hout0, Hrun, count_requests_add.
      by rewrite Nat.add_1_r.
    + intros k Hk. apply not_elem_of_cons in Hk as [Hne Hk].
      rewrite Hother by done. by apply dict_get_set_ne.
    + intros id v (i & resp & [Hi Hafter] & Hget & Hout).
      destruct i as [|i].
      * simpl in Hi. injection Hi as ->. rewrite Nat.add_0_r in Hget.
        assert (id ∉ ids) as Hfresh.
        { intros Hin. apply list_elem_of_lookup_1 in Hin as [j Hj].
          by apply (Hafter (S j)); [lia|]. }
        rewrite Hother by done. rewrite dict_get_set_eq. congruence.
      * apply Hlast. exists i, resp. split_and!; [split| |done].
        -- done.
        -- intros j Hj. apply (Hafter (S j)). lia.
        -- simpl. by rewrite Nat.add_succ_r in Hget.
Qed.

Lemma get_field_info_spec s field w :
  answered (requests_made w) (split_ids s) →
  ∃ d, get_field_info (PStr s) field w
       = (Ok (PDict d), count_requests (length (split_ids s)) w)
       ∧ (∀ k, k ∉ split_ids s →
               dict_get k d
               = dict_get k [("nct_ids", PList (PStr <$> split_ids s)); ("field", field)])
       ∧ (∀ id v, last_output field (requests_made w) (split_ids s) id v →
                  dict_get id d = Some v).
Proof.
  intros Hans.
  destruct (fetch_fields_spec field (split_ids s)
              (initial_data_out (split_ids s) field) w Hans)
    as (d & Hrun & Hother & Hlast).
  exists d. split_and!; [|intros k Hk|done].
  - unfold get_field_info. cbv zeta. by rewrite bind_run, Hrun.
  - rewrite Hother by done. by apply initial_data_out_other.
Qed.

Lemma last_output_exists field n0 ids id :
  answered n0 ids → id ∈ ids → ∃ v, last_output field n0 ids id v.
Proof.
  intros Hans Hin. destruct (last_index_exists ids id Hin) as [i Hi].
  destruct (answered_output field n0 i id ids Hans (proj1 Hi)) as (resp & v & Hget & Hout).
  exists v, i, resp. done.
Qed.


(** ** get_field_info: the claims *)

(** C3, amended.  For a field name outside the eleven recognised ones, on an
    answered batch, every identifier whose record requests are all answered
    200 is given the message that names the field and enumerates the valid
    field names. *)
Theorem get_field_info_unsupported s field w id :
  ¬ recognized field →
  answered (requests_made w) (split_ids s) →
  id ∈ split_ids s →
  (∀ i resp, split_ids s !! i = Some id →
     requests_get (requests_made w + i) (record_url id) None = Ok resp →
     status_code resp = 200) →
  ∃ d, get_field_info (PStr s) field w
       = (Ok (PDict d), count_requests (length (split_ids s)) w)
       ∧ dict_get id d = Some (PStr (invalid_field_message field)).
Proof.
  intros Hfield Hans Hin H200.
  destruct (get_field_info_spec s field w Hans) as (d & Hrun & _ & Hlast).
  exists d. split; [done|].
  destruct (last_index_exists _ _ Hin) as [i Hi].
  destruct (Hans i id (proj1 Hi)) as (resp & Hget & Hdoc).
  pose proof (H200 i resp (proj1 Hi) Hget) as Hc.
  destruct (Hdoc Hc) as [doc Hjson].
  apply Hlast. exists i, resp. split_and!; [done..|].
  rewrite (field_output_200 field resp doc) by done.
  by rewrite select_field_unrecognized.
Qed.

(** C6.  For each of the eleven recognised field names, on an answered
    batch, an identifier whose record requests are answered 200 with a
    document that lacks the field's path is given the fallback text of that
    field, and the call returns. *)
Theorem get_field_info_missing_path s f path fallback w id :
  (f, (path, fallback)) ∈ field_table →
  answered (requests_made w) (split_ids s) →
  id ∈ split_ids s →
  (∀ i, split_ids s !! i = Some id →
     ∃ resp doc,
       requests_get (requests_made w + i) (record_url id) None = Ok resp
       ∧ status_code resp = 200
       ∧ json resp = Ok doc
       ∧ ¬ has_path doc path) →
  ∃ d, get_field_info (PStr s) (PStr f) w
       = (Ok (PDict d), count_requests (length (split_ids s)) w)
       ∧ dict_get id d = Some (PStr fallback).
Proof.
  intros Hf Hans Hin Hdocs.
  destruct (get_field_info_spec s (PStr f) w Hans) as (d & Hrun & _ & Hlast).
  exists d. split; [done|].
  destruct (last_index_exists _ _ Hin) as [i Hi].
  destruct (Hdocs i (proj1 Hi)) as (resp & doc & Hget & Hc & Hjson & Hpath).
  apply Hlast. exists i, resp. split_and!; [done..|].
  rewrite (field_output_200 (PStr f) resp doc) by done.
  rewrite (select_field_table f path fallback) by done.
  by rewrite try_path_missing.
Qed.

(** C10.  On an answered batch the result has the keys [nct_ids] and
    [field]; they hold the split identifier list and the field argument
    unless the batch itself contains that key; and every identifier of the
    batch, these two included, ends with what its last request turned into,
    which replaces the metadata stored under the same key. *)
Theorem get_field_info_metadata s field w :
  answered (requests_made w) (split_ids s) →
  ∃ d, get_field_info (PStr s) field w
       = (Ok (PDict d), count_requests (length (split_ids s)) w)
       ∧ is_Some (dict_get "nct_ids" d)
       ∧ is_Some (dict_get "field" d)
       ∧ ("nct_ids" ∉ split_ids s →
          dict_get "nct_ids" d = Some (PList (PStr <$> split_ids s)))
       ∧ ("field" ∉ split_ids s → dict_get "field" d = Some field)
       ∧ (∀ id, id ∈ split_ids s →
            ∃ v, last_output field (requests_made w) (split_ids s) id v
                 ∧ dict_get id d = Some v).
Proof.
  intros Hans.
  destruct (get_field_info_spec s field w Hans) as (d & Hrun & Hother & Hlast).
  assert (∀ id, id ∈ split_ids s →
            ∃ v, last_output field (requests_made w) (split_ids s) id v
                 ∧ dict_get id d = Some v) as Hids.
  { intros id Hin. destruct (last_output_exists field _ _ _ Hans Hin) as [v Hv].
    exists v. split; [done | by apply Hlast]. }
  assert ("nct_ids" ∉ split_ids s →
          dict_get "nct_ids" d = Some (PList (PStr <$> split_ids s))) as Hn.
  { intros Hk. by rewrite Hother. }
  assert ("field" ∉ split_ids s → dict_get "field" d = Some field) as Hf.
  { intros Hk. by rewrite Hother. }
  exists d. split_and!; [done| | |done..].
  - destruct (decide ("nct_ids" ∈ split_ids s)) as [Hin|Hout].
    + destruct (Hids _ Hin) as (v & _ & ->). by eexists.
    + rewrite Hn by done. by eexists.
  - destruct (decide ("field" ∈ split_ids s)) as [Hin|Hout].
    + destruct (Hids _ Hin) as (v & _ & ->). by eexists.
    + rewrite Hf by done. by eexists.
Qed.

(** An answered batch is also all that lets the call return. *)
Lemma fetch_fields_returns field ids : ∀ d w d' w',
  fetch_fields field ids d w = (Ok d', w') → answered (requests_made w) ids.
Proof.
  induction ids as [|id0 ids IH]; intros d w d' w' Hrun i id Hi.
  - by rewrite lookup_nil in Hi.
  - cbn [fetch_fields] in Hrun. rewrite bind_run, http_get_run in Hrun.
    destruct (requests_get (requests_made w) (record_url id0) None)
      as [resp0|e] eqn:Hget0; [|done].
    unfold lift at 1 in Hrun. rewrite bind_run in Hrun.
    destruct (field_output field resp0) as [v0|e] eqn:Hout0; [|done].
    destruct i as [|i].
    + simpl in Hi. injection Hi as <-. rewrite Nat.add_0_r.
      exists resp0. split; [done|]. intros Hc.
      unfold field_output in Hout0. rewrite decide_True in Hout0 by done.
      destruct (json resp0) as [doc|e]; [by eexists | done].
    + rewrite Nat.add_succ_r. by apply (IH _ _ _ _ Hrun i id).
Qed.

Lemma get_field_info_returns s field w d w' :
  get_field_info (PStr s) field w = (Ok d, w') →
  answered (requests_made w) (split_ids s).
Proof.
  unfold get_field_info. cbv zeta. rewrite bind_run.
  destruct (fetch_fields _ _ _ w) as [[d0|e] w0] eqn:Hrun; [|done].
  intros _. by eapply fetch_fields_returns.
Qed.


(** ** save_csv *)

Lemma with_file_twice path text text' w :
  with_file path text (with_file path text' w) = with_file path text w.
Proof. unfold with_file; simpl. f_equal. apply insert_insert_eq. Qed.

Lemma save_csv_run text title w :
  save_csv (PStr text) (PStr title) w
  = match open_error (title +:+ ".csv") with
    | Some e => (Ok (PStr ("Error saving file: " +:+ str_exn e)), w)
    | None =>
        match write_failure (title +:+ ".csv") text with
        | None =>
            (Ok (PStr ("Saved to:" +:+ getcwd +:+ "/" +:+ title +:+ ".csv")),
             with_file (title +:+ ".csv") text w)
        | Some (e, written) =>
            (Ok (PStr ("Error saving file: " +:+ str_exn e)),
             with_file (title +:+ ".csv") written w)
        end
    end.
Proof.
  unfold save_csv, save_csv_try.
  destruct (open_error (title +:+ ".csv")) as [e|]; [done|].
  unfold file_write.
  destruct (write_failure (title +:+ ".csv") text) as [[e written]|];
    unfold write_file; cbv [mbind M_bind mret M_ret raise lift];
    by rewrite with_file_twice.
Qed.


(** Saving twice under one title leaves the second text alone in the file. *)
Lemma save_csv_twice text1 text2 title w r1 w1 r2 w2 :
  open_error (title +:+ ".csv") = None →
  write_failure (title +:+ ".csv") text2 = None →
  save_csv (PStr text1) (PStr title) w = (r1, w1) →
  save_csv (PStr text2) (PStr title) w1 = (r2, w2) →
  files w2 !! (title +:+ ".csv") = Some text2.
Proof.
  intros Hopen Hwrite H1 H2. rewrite save_csv_run, Hopen, Hwrite in H2.
  injection H2 as _ <-. apply lookup_insert_eq.
Qed.

(** X18.  Whatever the arguments, [save_csv] returns a string and does not
    raise: every failure of the body becomes the returned text. *)
Lemma save_csv_total text title w :
  ∃ msg w', save_csv text title w = (Ok (PStr msg), w').
Proof.
  unfold save_csv.
  destruct (save_csv_try text title w) as [[v|e] w'] eqn:Hrun; [|by eauto].
  unfold save_csv_try in Hrun. destruct title; try done.
  destruct (open_error _); [done|].
  unfold file_write, write_file in Hrun.
  destruct text; cbv [mbind M_bind mret M_ret raise lift] in Hrun; try done.
  destruct (write_failure _ _) as [[e written]|];
    cbv [mbind M_bind mret M_ret raise lift] in Hrun; [done|].
  injection Hrun as <- <-. by eauto.
Qed.

(** ** The handlers leave the transcript alone *)

Lemma keeps_messages_ret {A} (a : A) : keeps_messages (mret a).
Proof. by intros w. Qed.

Lemma keeps_messages_lift {A} (r : result A) : keeps_messages (lift r).
Proof. by intros w. Qed.

Lemma keeps_messages_bind {A B} (m : M A) (f : A → M B) :
  keeps_messages m → (∀ a, keeps_messages (f a)) → keeps_messages (m ≫= f).
Proof.
  intros Hm Hf w. rewrite bind_run. specialize (Hm w).
  destruct (m w) as [[a|e] w']; simpl in *; [|done].
  by rewrite Hf.
Qed.

Lemma keeps_messages_http_get url params : keeps_messages (http_get url params).
Proof. by intros w. Qed.

Lemma keeps_messages_write_file path text : keeps_messages (write_file path text).
Proof. by intros w. Qed.

Lemma keeps_messages_save_csv text title : keeps_messages (save_csv text title).
Proof.
  assert (keeps_messages (save_csv_try text title)) as Htry.
  { unfold save_csv_try. destruct title; try apply keeps_messages_lift.
    destruct (open_error _); [apply keeps_messages_lift|].
    apply keeps_messages_bind; [apply keeps_messages_write_file|intros _].
    apply keeps_messages_bind; [|intros _; apply keeps_messages_ret].
    unfold file_write.
    destruct text; try apply keeps_messages_lift.
    destruct (write_failure _ _) as [[e written]|];
      [|apply keeps_messages_write_file].
    apply keeps_messages_bind; [apply keeps_messages_write_file|intros _].
    apply keeps_messages_lift. }
  intros w. unfold save_csv. specialize (Htry w).
  by destruct (save_csv_try text title w) as [[v|e] w'].
Qed.

Lemma keeps_messages_study_search query_term pageSize :
  keeps_messages (study_search query_term pageSize).
Proof.
  unfold study_search. cbv zeta.
  apply keeps_messages_bind; [apply keeps_messages_http_get|intros resp].
  destruct (decide _); [|apply keeps_messages_ret].
  apply keeps_messages_bind; [apply keeps_messages_lift|intros data].
  apply keeps_messages_bind; [apply keeps_messages_lift|intros study_data].
  apply keeps_messages_bind; [apply keeps_messages_lift|intros studies].
  apply keeps_messages_bind; [apply keeps_messages_lift|intros [names ncts]].
  apply keeps_messages_ret.
Qed.

Lemma keeps_messages_fetch_fields field ids : ∀ d,
  keeps_messages (fetch_fields field ids d).
Proof.
  induction ids as [|id ids IH]; intros d; [apply keeps_messages_ret|].
  cbn [fetch_fields].
  apply keeps_messages_bind; [apply keeps_messages_http_get|intros resp].
  apply keeps_messages_bind; [apply keeps_messages_lift|intros v]. apply IH.
Qed.

Lemma keeps_messages_get_field_info nct_ids field :
  keeps_messages (get_field_info nct_ids field).
Proof.
  unfold get_field_info. destruct nct_ids; try apply keeps_messages_lift.
  cbv zeta. apply keeps_messages_bind; [apply keeps_messages_fetch_fields|].
  intros d. apply keeps_messages_ret.
Qed.

Lemma function_map_cases function_name f :
  function_map !! function_name = Some f →
  f = study_search_method ∨ f = get_field_info_method ∨ f = save_csv_method.
Proof.
  unfold function_map. intros H.
  repeat (apply lookup_insert_Some in H as [[_ <-] | [_ H]]; [by auto|]).
  by rewrite lookup_empty in H.
Qed.

Lemma function_map_unknown function_name :
  function_name ≠ "study_search" →
  function_name ≠ "get_field_info" →
  function_name ≠ "save_csv" →
  function_map !! function_name = None.
Proof.
  intros H1 H2 H3. unfold function_map.
  by rewrite !lookup_insert_ne, lookup_empty.
Qed.

Lemma keeps_messages_call_kwargs function_name f args :
  function_map !! function_name = Some f → keeps_messages (call_kwargs f args).
Proof.
  intros Hf. unfold call_kwargs.
  apply keeps_messages_bind; [apply keeps_messages_lift|intros env].
  destruct (function_map_cases _ _ Hf) as [-> | [-> | ->]]; simpl.
  - apply keeps_messages_study_search.
  - apply keeps_messages_get_field_info.
  - apply keeps_messages_save_csv.
Qed.


(** ** The dispatch loop *)

Lemma try_call_run f args w :
  try_call f args w
  = (Ok (function_response_of (call_kwargs f args w).1), (call_kwargs f args w).2).
Proof. unfold try_call. by destruct (call_kwargs f args w). Qed.

(** A failure to bind the arguments is caught: its text becomes the
    function response. *)
Lemma try_call_bind_failure f args e w :
  bind_kwargs f args = Raise e →
  try_call f args w
  = (Ok (PStr ("Function call failed with error: " +:+ str_exn e)), w).
Proof.
  intros Hbind. rewrite try_call_run. unfold call_kwargs, lift.
  by rewrite bind_run, Hbind.
Qed.

(** A round whose function is registered and whose arguments parse returns,
    and appends the notice and the function result. *)
Lemma dispatch_round_ok call f args w :
  function_map !! name call = Some f →
  json_loads (arguments call) = Ok args →
  let notice := call_notice (name call) args in
  let outcome := call_kwargs f args (with_messages [notice] w) in
  ∃ w', dispatch_round call w = (Ok tt, w')
        ∧ messages w'
          = messages w
            ++ [notice;
                FunctionMessage (name call)
                  (json_dumps (function_response_of outcome.1))].
Proof.
  intros Hf Hargs notice outcome.
  assert (messages outcome.2 = messages w ++ [notice]) as Hkeep.
  { unfold outcome. by rewrite (keeps_messages_call_kwargs _ _ _ Hf). }
  eexists. split.
  - unfold dispatch_round, lookup_function, lift. cbv zeta.
    rewrite Hf, bind_run, bind_run, Hargs, bind_run.
    unfold append_message at 1. rewrite bind_run, try_call_run.
    unfold append_message. reflexivity.
  - unfold outcome, notice, call_notice in *. cbn [messages with_messages].
    cbn [messages with_messages] in Hkeep. rewrite Hkeep. by rewrite <- app_assoc.
Qed.

(** The loop ends on a text answer, whatever is left of the script. *)
Lemma dispatch_loop_text llm response :
  function_call response = None →
  dispatch_loop llm response
  = append_message (ChatMessage "assistant" (content response)).
Proof. intros H. destruct llm; simpl; by rewrite H. Qed.

(** The same round when the arguments do not bind: the error text is what
    the function message carries. *)
Lemma dispatch_round_bind_failure call f args e w :
  function_map !! name call = Some f →
  json_loads (arguments call) = Ok args →
  bind_kwargs f args = Raise e →
  ∃ w', dispatch_round call w = (Ok tt, w')
        ∧ messages w'
          = messages w
            ++ [call_notice (name call) args;
                FunctionMessage (name call)
                  (json_dumps
                     (PStr ("Function call failed with error: " +:+ str_exn e)))].
Proof.
  intros Hf Hargs Hbind.
  destruct (dispatch_round_ok call f args w Hf Hargs) as (w' & Hrun & Hmsgs).
  exists w'. split; [done|]. rewrite Hmsgs.
  unfold call_kwargs, lift. by rewrite bind_run, Hbind.
Qed.

(** C1, as the code runs it.  A call whose name is not a key of
    [function_map] makes the lookup raise [KeyError] before anything is
    appended, and the turn ends on that exception with only the prompt
    recorded. *)
Theorem run_turn_unknown_name prompt call text llm w :
  key_missing = false →
  function_map !! name call = None →
  dispatch_round call w = (Raise (KeyError (name call)), w)
  ∧ run_turn ({| content := text; function_call := Some call |} :: llm) prompt w
    = (Raise (KeyError (name call)),
       with_messages [ChatMessage "user" prompt] w).
Proof.
  intros Hkey Hf.
  assert (∀ w0, dispatch_round call w0 = (Raise (KeyError (name call)), w0)) as Hround.
  { intros w0. unfold dispatch_round, lookup_function, lift. cbv zeta.
    by rewrite Hf, bind_run. }
  split; [apply Hround|].
  unfold run_turn. rewrite Hkey, bind_run. unfold append_message.
  destruct llm; cbn [dispatch_loop function_call]; by rewrite bind_run, Hround.
Qed.

(** C2, as the code runs it.  When [json.loads] raises on the arguments of a
    registered function, the exception leaves the round before anything is
    appended, and the turn ends on it with only the prompt recorded. *)
Theorem run_turn_unparsable_arguments prompt call text llm f e w :
  key_missing = false →
  function_map !! name call = Some f →
  json_loads (arguments call) = Raise e →
  dispatch_round call w = (Raise e, w)
  ∧ run_turn ({| content := text; function_call := Some call |} :: llm) prompt w
    = (Raise e, with_messages [ChatMessage "user" prompt] w).
Proof.
  intros Hkey Hf Hargs.
  assert (∀ w0, dispatch_round call w0 = (Raise e, w0)) as Hround.
  { intros w0. unfold dispatch_round, lookup_function, lift. cbv zeta.
    by rewrite Hf, bind_run, bind_run, Hargs. }
  split; [apply Hround|].
  unfold run_turn. rewrite Hkey, bind_run. unfold append_message.
  destruct llm; cbn [dispatch_loop function_call]; by rewrite bind_run, Hround.
Qed.

(** C4, amended.  With an API key set, a scripted model that first asks for a
    registered function with arguments that parse and then answers in text
    makes the turn return after one round (whatever the script holds after
    that), and the transcript grows by, in order: the user message, the system notice with the name and the
    arguments, the function message with the serialized function response
    (the return value, or the error text when the call raised), and the
    assistant message. *)
Theorem run_turn_round_trip prompt call text0 text later f args w :
  key_missing = false →
  function_map !! name call = Some f →
  json_loads (arguments call) = Ok args →
  let user := ChatMessage "user" prompt in
  let notice := call_notice (name call) args in
  let outcome := call_kwargs f args (with_messages [user; notice] w) in
  ∃ w', run_turn ({| content := text0; function_call := Some call |}
                   :: {| content := text; function_call := None |}
                   :: later) prompt w
        = (Ok tt, w')
        ∧ messages w'
          = messages w
            ++ [user;
                notice;
                FunctionMessage (name call)
                  (json_dumps (function_response_of outcome.1));
                ChatMessage "assistant" text].
Proof.
  intros Hkey Hf Hargs. cbv zeta.
  destruct (dispatch_round_ok call f args
              (with_messages [ChatMessage "user" prompt] w) Hf Hargs)
    as (w1 & Hround & Hmsgs).
  replace (with_messages [call_notice (name call) args]
             (with_messages [ChatMessage "user" prompt] w))
    with (with_messages [ChatMessage "user" prompt; call_notice (name call) args] w)
    in Hmsgs.
  2: { unfold with_messages; simpl. by rewrite <- app_assoc. }
  eexists. split.
  - unfold run_turn. rewrite Hkey, bind_run. unfold append_message at 1.
    cbn [dispatch_loop function_call].
    rewrite bind_run, Hround, dispatch_loop_text by done. reflexivity.
  - cbn [append_message with_messages messages content snd]. rewrite Hmsgs.
    cbn [with_messages messages]. by rewrite <- !app_assoc.
Qed.


(** ** The transcript of a turn *)

Lemma dispatch_round_cases call w :
  (∃ e, dispatch_round call w = (Raise e, w))
  ∨ (∃ f args w',
       function_map !! name call = Some f
       ∧ json_loads (arguments call) = Ok args
       ∧ dispatch_round call w = (Ok tt, w')
       ∧ messages w'
         = messages w
           ++ [call_notice (name call) args;
               FunctionMessage (name call)
                 (json_dumps
                    (function_response_of
                       (call_kwargs f args
                          (with_messages [call_notice (name call) args] w)).1))]).
Proof.
  destruct (function_map !! name call) as [f|] eqn:Hf.
  - destruct (json_loads (arguments call)) as [args|e] eqn:Hargs.
    + right. destruct (dispatch_round_ok call f args w Hf Hargs) as (w' & Hrun & Hmsgs).
      by exists f, args, w'.
    + left. exists e. unfold dispatch_round, lookup_function, lift. cbv zeta.
      by rewrite Hf, bind_run, bind_run, Hargs.
  - left. exists (KeyError (name call)).
    unfold dispatch_round, lookup_function, lift. cbv zeta.
    by rewrite Hf, bind_run.
Qed.

Lemma dispatch_loop_call llm response call :
  function_call response = Some call →
  dispatch_loop llm response
  = (dispatch_round call;;
     match llm with
     | [] => raise StopIteration
     | next :: llm' => dispatch_loop llm' next
     end).
Proof. intros H. destruct llm; simpl; by rewrite H. Qed.

Lemma dispatch_loop_shape llm : ∀ response w,
  ∃ tail,
    messages (dispatch_loop llm response w).2 = messages w ++ tail
    ∧ turn_tail tail
    ∧ ((dispatch_loop llm response w).1 = Ok tt →
       ∃ text, last tail = Some (ChatMessage "assistant" text)).
Proof.
  induction llm as [|next llm IH]; intros response w;
    destruct (function_call response) as [call|] eqn:Hcall.
  - rewrite (dispatch_loop_call _ _ _ Hcall), bind_run.
    destruct (dispatch_round_cases call w)
      as [[e ->]|(f & args & w' & Hf & _ & -> & Hmsgs)].
    + exists []. simpl. rewrite app_nil_r. split_and!; [done|constructor|done].
    + eexists. split_and!; [exact Hmsgs| |done].
      by repeat constructor.
  - rewrite dispatch_loop_text by done.
    exists [ChatMessage "assistant" (content response)].
    split_and!; [done|constructor|by eexists].
  - rewrite (dispatch_loop_call _ _ _ Hcall), bind_run.
    destruct (dispatch_round_cases call w)
      as [[e ->]|(f & args & w' & Hf & _ & -> & Hmsgs)].
    + exists []. simpl. rewrite app_nil_r. split_and!; [done|constructor|done].
    + destruct (IH next w') as (tail & Htail & Hshape & Hlast).
      eexists (_ :: _ :: tail). split_and!.
      * rewrite Htail, Hmsgs. by rewrite <- app_assoc.
      * by constructor.
      * intros Hok. destruct (Hlast Hok) as [text Htext]. exists text.
        destruct tail; [done|]. exact Htext.
  - rewrite dispatch_loop_text by done.
    exists [ChatMessage "assistant" (content response)].
    split_and!; [done|constructor|by eexists].
Qed.

(** X1.  Whatever the script and however the turn ends, the transcript only
    grows: by the user message, then complete rounds (a call notice followed
    at once by the function message of a registered function), then at most
    one assistant message.  A turn that returns with an API key set ends on
    the assistant message. *)
Theorem run_turn_transcript llm prompt w :
  ∃ tail,
    messages (run_turn llm prompt w).2
    = messages w ++ ChatMessage "user" prompt :: tail
    ∧ turn_tail tail
    ∧ (key_missing = false →
       (run_turn llm prompt w).1 = Ok tt →
       ∃ text, last tail = Some (ChatMessage "assistant" text)).
Proof.
  unfold run_turn. rewrite bind_run. unfold append_message at 1.
  destruct key_missing.
  - exists []. split_and!; [done|constructor|done].
  - destruct llm as [|response llm].
    + exists []. split_and!; [done|constructor|done].
    + destruct (dispatch_loop_shape llm response
                  (with_messages [ChatMessage "user" prompt] w))
        as (tail & Htail & Hshape & Hlast).
      exists tail. split_and!; [|done|by intros _].
      rewrite Htail. simpl. by rewrite <- app_assoc.
Qed.

Lemma dispatch_loop_rounds answer later :
  function_call answer = None →
  ∀ rest first w,
    well_formed_call first →
    Forall well_formed_call rest →
    ∃ w' rounds,
      dispatch_loop (rest ++ answer :: later) first w = (Ok tt, w')
      ∧ messages w'
        = messages w ++ rounds ++ [ChatMessage "assistant" (content answer)]
      ∧ length rounds = (2 * S (length rest))%nat
      ∧ turn_tail rounds.
Proof.
  intros Hanswer. induction rest as [|next rest IH];
    intros first w (call & args & Hcall & [f Hf] & Hargs) Hrest.
  - destruct (dispatch_round_ok call f args w Hf Hargs) as (w1 & Hrun & Hmsgs).
    eexists _, [_; _]. split_and!.
    + rewrite (dispatch_loop_call _ _ _ Hcall), bind_run, Hrun.
      simpl. by rewrite dispatch_loop_text.
    + simpl. rewrite Hmsgs. by rewrite <- app_assoc.
    + done.
    + by repeat constructor.
  - apply Forall_cons in Hrest as [Hnext Hrest].
    destruct (dispatch_round_ok call f args w Hf Hargs) as (w1 & Hrun & Hmsgs).
    destruct (IH next w1 Hnext Hrest) as (w' & rounds & Hloop & Hall & Hlen & Hshape).
    eexists w', (_ :: _ :: rounds). split_and!.
    + rewrite (dispatch_loop_call _ _ _ Hcall), bind_run, Hrun. exact Hloop.
    + rewrite Hall, Hmsgs. by rewrite <- !app_assoc.
    + simpl in *. lia.
    + by constructor.
Qed.

(** X2.  With an API key set, a script of [n] answers that each ask for a
    registered function with arguments that parse, followed by a text
    answer, makes the turn return after exactly [n] rounds, for any [n]: the
    transcript grows by the user message, [2 n] round messages and the
    assistant message.  The loop has no bound of its own. *)
Theorem run_turn_rounds requests answer later prompt w :
  key_missing = false →
  Forall well_formed_call requests →
  function_call answer = None →
  ∃ w' rounds,
    run_turn (requests ++ answer :: later) prompt w = (Ok tt, w')
    ∧ messages w'
      = messages w
        ++ ChatMessage "user" prompt
        :: rounds ++ [ChatMessage "assistant" (content answer)]
    ∧ length rounds = (2 * length requests)%nat
    ∧ turn_tail rounds.
Proof.
  intros Hkey Hrequests Hanswer.
  unfold run_turn. rewrite Hkey, bind_run. unfold append_message at 1.
  destruct requests as [|first rest].
  - eexists _, []. simpl. rewrite dispatch_loop_text by done.
    split_and!; [done| |done|constructor].
    simpl. by rewrite <- app_assoc.
  - apply Forall_cons in Hrequests as [Hfirst Hrest].
    destruct (dispatch_loop_rounds answer later Hanswer rest first
                (with_messages [ChatMessage "user" prompt] w) Hfirst Hrest)
      as (w' & rounds & Hloop & Hall & Hlen & Hshape).
    exists w', rounds. split_and!; [exact Hloop| |done..].
    rewrite Hall. simpl. by rewrite <- app_assoc.
Qed.

(** X3.  In a round whose function is registered and whose arguments parse,
    an exception of the call (the arguments do not bind, or the handler
    raises) does not leave the round: its text, after
    ["Function call failed with error: "], is what the function message
    carries, and the round returns. *)
Theorem dispatch_round_call_failure call f args e w :
  function_map !! name call = Some f →
  json_loads (arguments call) = Ok args →
  (call_kwargs f args (with_messages [call_notice (name call) args] w)).1
  = Raise e →
  ∃ w', dispatch_round call w = (Ok tt, w')
        ∧ messages w'
          = messages w
            ++ [call_notice (name call) args;
                FunctionMessage (name call)
                  (json_dumps
                     (PStr ("Function call failed with error: " +:+ str_exn e)))].
Proof.
  intros Hf Hargs Hcall.
  destruct (dispatch_round_ok call f args w Hf Hargs) as (w' & Hrun & Hmsgs).
  exists w'. split; [done|]. rewrite Hmsgs. cbv zeta. by rewrite Hcall.
Qed.


(** ** What the handlers touch *)

Lemma lift_world {A} (r : result A) w : (lift r w).2 = w.
Proof. done. Qed.

(** X4.  Whatever its arguments and whatever the outcome (a summary, a
    status message, or an exception), [study_search] issues exactly one
    request and changes nothing else: no file, no message. *)
Theorem study_search_frame query_term pageSize w :
  (study_search query_term pageSize w).2 = count_requests 1 w.
Proof.
  unfold study_search. cbv zeta. rewrite bind_run, http_get_run.
  destruct (requests_get _ _ _) as [resp|e]; [|done].
  destruct (decide _) as [Hc|Hc]; [|done].
  unfold lift. rewrite bind_run.
  destruct (json resp) as [data|e]; [|done]. rewrite bind_run.
  destruct (getitem data "studies") as [study_data|e]; [|done]. rewrite bind_run.
  destruct (py_iter study_data) as [studies|e]; [|done]. rewrite bind_run.
  by destruct (collect_studies studies [] []) as [[names ncts]|e].
Qed.

Lemma fetch_fields_frame field ids : ∀ d w,
  ∃ k, (k ≤ length ids)%nat
       ∧ (ids ≠ [] → (1 ≤ k)%nat)
       ∧ (fetch_fields field ids d w).2 = count_requests k w.
Proof.
  induction ids as [|id ids IH]; intros d w.
  - exists 0%nat. simpl. by rewrite count_requests_0.
  - cbn [fetch_fields]. rewrite bind_run, http_get_run.
    destruct (requests_get _ _ _) as [resp|e].
    + unfold lift at 1. rewrite bind_run.
      destruct (field_output field resp) as [v|e].
      * destruct (IH (dict_set id v d) (count_requests 1 w)) as (k & Hk & _ & Hw).
        exists (S k). split_and!; [simpl; lia | lia |].
        rewrite Hw, count_requests_add. by rewrite Nat.add_1_r.
      * exists 1%nat. split_and!; [simpl; lia | done | done].
    + exists 1%nat. split_and!; [simpl; lia | done | done].
Qed.

Lemma split_comma_length s : ∀ cur,
  length (Str.split_from "," s 0 cur) = S (commas s).
Proof.
  unfold commas. induction s as [|c s IH]; intros cur; [done|].
  rewrite split_comma_cons. cbn [list_ascii_of_string].
  destruct (decide (c = ","%char)) as [->|Hne].
  - rewrite filter_cons_True by done. simpl. by rewrite IH.
  - rewrite filter_cons_False by done. apply IH.
Qed.

Lemma commas_without_spaces s :
  commas (Str.replace s " " EmptyString) = commas s.
Proof.
  unfold commas. rewrite replace_space_chars.
  induction (list_ascii_of_string s) as [|c l IH]; [done|].
  destruct (decide (c = " "%char)) as [->|Hne].
  - rewrite filter_cons_False by (intros Hn; by apply Hn).
    by rewrite (filter_cons_False _ " "%char).
  - rewrite filter_cons_True by done.
    destruct (decide (c = ","%char)) as [->|Hc].
    + rewrite !filter_cons_True by done. simpl. by rewrite IH.
    + by rewrite !filter_cons_False.
Qed.


(** X6.  Whatever its arguments and whatever the outcome, [get_field_info]
    writes no file and appends no message; for a string of identifiers it
    issues at least one request and at most one per identifier, that is at
    most one more than the string has commas. *)
Theorem get_field_info_frame s field w :
  ∃ k, (1 ≤ k ≤ S (commas s))%nat
       ∧ (get_field_info (PStr s) field w).2 = count_requests k w.
Proof.
  destruct (fetch_fields_frame field (split_ids s)
              (initial_data_out (split_ids s) field) w) as (k & Hk & Hpos & Hw).
  assert (length (split_ids s) = S (commas s)) as Hlen.
  { unfold split_ids, Str.split. by rewrite split_comma_length, commas_without_spaces. }
  exists k. split.
  - split; [|lia]. apply Hpos. intros Hnil. by rewrite Hnil in Hlen.
  - unfold get_field_info. cbv zeta. rewrite bind_run.
    destruct (fetch_fields _ _ _ w) as [[d|e] w']; exact Hw.
Qed.


(** X8.  The file is opened, and so emptied, before the text is looked at:
    with a string title whose file opens and a text that is not a string,
    [save_csv] returns an error string and leaves [<title>.csv] empty,
    whatever it held before. *)
Theorem save_csv_truncates text title w :
  open_error (title +:+ ".csv") = None →
  (∀ s, text ≠ PStr s) →
  ∃ msg,
    save_csv text (PStr title) w
    = (Ok (PStr ("Error saving file: " +:+ msg)),
       with_file (title +:+ ".csv") EmptyString w)
    ∧ files (with_file (title +:+ ".csv") EmptyString w) !! (title +:+ ".csv")
      = Some EmptyString.
Proof.
  intros Hopen Htext. unfold save_csv, save_csv_try. rewrite Hopen.
  unfold file_write, write_file.
  destruct text; cbv [mbind M_bind mret M_ret raise lift];
    try (eexists; split; [reflexivity | apply lookup_insert_eq]).
  by destruct (Htext s).
Qed.


(** ** study_search on a malformed answer *)

Lemma collect_studies_raises good bad rest e : ∀ names ncts,
  Forall complete_entry good →
  entry_raises bad e →
  collect_studies (good ++ bad :: rest) names ncts = Raise e.
Proof.
  induction good as [|study good IH]; intros names ncts Hgood Hbad.
  - cbn [app collect_studies].
    destruct Hbad as [->|(title & -> & Hnct)]; [done|].
    cbn [mbind result_bind]. by rewrite Hnct.
  - apply Forall_cons in Hgood as [(title & nct & Ht & Hn) Hgood].
    cbn [app collect_studies]. rewrite Ht, Hn. cbn [mbind result_bind].
    by apply IH.
Qed.

(** X9.  One entry of the [studies] array without a brief title or without
    an identifier makes the whole search raise, at the first such entry: the
    entries read before it are dropped and no summary is returned. *)
Theorem study_search_bad_entry query_term pageSize w resp data good bad rest e :
  requests_get (requests_made w) search_url
    (Some (search_params query_term pageSize)) = Ok resp →
  status_code resp = 200 →
  json resp = Ok data →
  getitem data "studies" = Ok (PList (good ++ bad :: rest)) →
  Forall complete_entry good →
  entry_raises bad e →
  study_search query_term pageSize w = (Raise e, count_requests 1 w).
Proof.
  intros Hget Hcode Hjson Hstudies Hgood Hbad.
  unfold study_search. cbv zeta. rewrite bind_run, http_get_run, Hget.
  rewrite decide_True by done.
  unfold lift. rewrite bind_run, Hjson, bind_run, Hstudies, bind_run.
  cbn [py_iter]. rewrite bind_run.
  by rewrite (collect_studies_raises good bad rest e).
Qed.

(** X10.  A 200 answer whose document is an object without the key
    [studies] makes the search raise [KeyError('studies')]. *)
Theorem study_search_no_studies query_term pageSize w resp d :
  requests_get (requests_made w) search_url
    (Some (search_params query_term pageSize)) = Ok resp →
  status_code resp = 200 →
  json resp = Ok (PDict d) →
  dict_get "studies" d = None →
  study_search query_term pageSize w
  = (Raise (KeyError "studies"), count_requests 1 w).
Proof.
  intros Hget Hcode Hjson Hkey.
  unfold study_search. cbv zeta. rewrite bind_run, http_get_run, Hget.
  rewrite decide_True by done.
  unfold lift. rewrite bind_run, Hjson, bind_run. cbn [getitem]. by rewrite Hkey.
Qed.

(** ** get_field_info: the other outcomes of a request *)

(** X11.  A record that is not found does not stop the batch: on an answered
    batch, an identifier whose last request is answered with a status [c]
    other than 200 gets the entry ["Request failed with status code c"], and
    the call returns. *)
Theorem get_field_info_status_message s field w id i resp :
  answered (requests_made w) (split_ids s) →
  last_index (split_ids s) id i →
  requests_get (requests_made w + i) (record_url id) None = Ok resp →
  status_code resp ≠ 200 →
  ∃ d, get_field_info (PStr s) field w
       = (Ok (PDict d), count_requests (length (split_ids s)) w)
       ∧ dict_get id d
         = Some (PStr ("Request failed with status code "
                       +:+ Str.of_int (status_code resp))).
Proof.
  intros Hans Hi Hget Hcode.
  destruct (get_field_info_spec s field w Hans) as (d & Hrun & _ & Hlast).
  exists d. split; [done|]. apply Hlast. exists i, resp. split_and!; [done..|].
  unfold field_output. by rewrite decide_False.
Qed.

(** X12.  For each of the eleven recognised field names, on an answered
    batch, an identifier whose last request is answered 200 with a document
    that has the field's path gets the value found there. *)
Theorem get_field_info_present_path s f path fallback w id i resp doc v :
  (f, (path, fallback)) ∈ field_table →
  answered (requests_made w) (split_ids s) →
  last_index (split_ids s) id i →
  requests_get (requests_made w + i) (record_url id) None = Ok resp →
  status_code resp = 200 →
  json resp = Ok doc →
  get_path doc path = Ok v →
  ∃ d, get_field_info (PStr s) (PStr f) w
       = (Ok (PDict d), count_requests (length (split_ids s)) w)
       ∧ dict_get id d = Some v.
Proof.
  intros Hf Hans Hi Hget Hcode Hjson Hpath.
  destruct (get_field_info_spec s (PStr f) w Hans) as (d & Hrun & _ & Hlast).
  exists d. split; [done|]. apply Hlast. exists i, resp. split_and!; [done..|].
  rewrite (field_output_200 (PStr f) resp doc) by done.
  rewrite (select_field_table f path fallback) by done.
  unfold try_path. by rewrite Hpath.
Qed.

Lemma fetch_fields_aborts field ids : ∀ d w i id e,
  ids !! i = Some id →
  answered (requests_made w) (take i ids) →
  request_raises (requests_made w + i) (record_url id) e →
  fetch_fields field ids d w = (Raise e, count_requests (S i) w).
Proof.
  induction ids as [|id0 ids IH]; intros d w i id e Hi Hans Hraise; [done|].
  cbn [fetch_fields]. rewrite bind_run, http_get_run.
  destruct i as [|i].
  - simpl in Hi. injection Hi as ->. rewrite Nat.add_0_r in Hraise.
    destruct Hraise as [->|(resp & -> & Hcode & Hjson)]; [done|].
    unfold lift at 1. rewrite bind_run. unfold field_output.
    rewrite decide_True by done. by rewrite Hjson.
  - cbn [take] in Hans. simpl in Hi.
    destruct (answered_output field _ 0 id0 _ Hans eq_refl) as (resp0 & v0 & Hget0 & Hout0).
    rewrite Nat.add_0_r in Hget0. rewrite Hget0.
    unfold lift at 1. rewrite bind_run, Hout0.
    rewrite (IH _ (count_requests 1 w) i id e); [|done| |].
    + rewrite count_requests_add. by rewrite Nat.add_1_r.
    + by apply answered_tail in Hans.
    + simpl. by rewrite Nat.add_succ_r in Hraise.
Qed.

(** X13.  An exception of the transport, or a 200 answer whose body is not
    JSON, does stop the batch: when the requests before position [i] are
    answered and the one at [i] ends in the exception [e], the call raises
    [e] after [i + 1] requests, and the entries gathered so far are lost. *)
Theorem get_field_info_aborts s field w i id e :
  split_ids s !! i = Some id →
  answered (requests_made w) (take i (split_ids s)) →
  request_raises (requests_made w + i) (record_url id) e →
  get_field_info (PStr s) field w = (Raise e, count_requests (S i) w).
Proof.
  intros Hi Hans Hraise. unfold get_field_info. cbv zeta. rewrite bind_run.
  by rewrite (fetch_fields_aborts field _ _ w i id e).
Qed.

(** X14.  The call returns exactly when every record request of the batch is
    answered and every 200 answer carries a JSON document. *)
Theorem get_field_info_returns_iff s field w :
  (∃ d w', get_field_info (PStr s) field w = (Ok d, w'))
  ↔ answered (requests_made w) (split_ids s).
Proof.
  split.
  - intros (d & w' & Hrun). by eapply get_field_info_returns.
  - intros Hans. destruct (get_field_info_spec s field w Hans) as (d & Hrun & _).
    by eexists _, _.
Qed.

(** ** get_field_info: the keys of the result *)

Lemma dict_set_keys k v d :
  (dict_set k v d).*1 = if decide (k ∈ d.*1) then d.*1 else d.*1 ++ [k].
Proof.
  induction d as [|[k' v'] d IH]; [done|]. cbn [dict_set].
  destruct (decide (k = k')) as [->|Hne].
  - rewrite decide_True; [done|]. simpl. by left.
  - cbn [fmap list_fmap fst]. fold (@fmap list _ _ _ (@fst string pyval) (dict_set k v d)).
    fold (@fmap list _ _ _ (@fst string pyval) d). rewrite IH.
    destruct (decide (k ∈ d.*1)) as [Hin|Hout].
    + rewrite decide_True; [done|]. by right.
    + rewrite decide_False; [done|]. by intros [?|?]%elem_of_cons.
Qed.

Lemma dict_set_keys_elem k k' v d :
  k' ∈ (dict_set k v d).*1 ↔ k' = k ∨ k' ∈ d.*1.
Proof.
  rewrite dict_set_keys. destruct (decide (k ∈ d.*1)) as [Hin|Hout].
  - split; [by right | by intros [->|?]].
  - rewrite elem_of_app, list_elem_of_singleton. split; intros [?|?]; auto.
Qed.

Lemma dict_set_keys_NoDup k v d : NoDup d.*1 → NoDup (dict_set k v d).*1.
Proof.
  intros Hd. rewrite dict_set_keys. destruct (decide (k ∈ d.*1)) as [Hin|Hout]; [done|].
  apply NoDup_app. split_and!; [done| |apply NoDup_singleton].
  intros x Hx ->%list_elem_of_singleton. done.
Qed.

Lemma dict_set_keys_prefix k v d prefix rest :
  d.*1 = prefix ++ rest → ∃ rest', (dict_set k v d).*1 = prefix ++ rest'.
Proof.
  intros Hd. rewrite dict_set_keys. destruct (decide _); [by eexists|].
  exists (rest ++ [k]). by rewrite Hd, <- app_assoc.
Qed.

Lemma initial_data_out_keys field ids :
  NoDup (initial_data_out ids field).*1
  ∧ (∃ rest, (initial_data_out ids field).*1 = ["nct_ids"; "field"] ++ rest)
  ∧ ∀ k, k ∈ (initial_data_out ids field).*1
         ↔ k = "nct_ids" ∨ k = "field" ∨ k ∈ ids.
Proof.
  unfold initial_data_out.
  assert (∀ (l : list string) (d : pydict),
            NoDup d.*1 →
            (∃ rest, d.*1 = ["nct_ids"; "field"] ++ rest) →
            let d' := foldl (λ data_out nct_id, dict_set nct_id PNone data_out) d l in
            NoDup d'.*1
            ∧ (∃ rest, d'.*1 = ["nct_ids"; "field"] ++ rest)
            ∧ ∀ k, k ∈ d'.*1 ↔ k ∈ d.*1 ∨ k ∈ l) as Hfold.
  { induction l as [|id l IH]; intros d Hnd [rest Hrest]; cbn [foldl].
    - split_and!; [done|by eexists|]. intros k. rewrite elem_of_nil.
      split; [by left | by intros [?|[]]].
    - destruct (IH (dict_set id PNone d)) as (H1 & H2 & H3).
      + by apply dict_set_keys_NoDup.
      + by eapply dict_set_keys_prefix.
      + split_and!; [done..|]. intros k.
        rewrite H3, dict_set_keys_elem, elem_of_cons.
        split; [intros [[?|?]|?] | intros [?|[?|?]]]; auto. }
  destruct (Hfold ids [("nct_ids", PList (PStr <$> ids)); ("field", field)])
    as (H1 & H2 & H3).
  - simpl. apply NoDup_cons. split; [|apply NoDup_singleton].
    by intros ?%list_elem_of_singleton.
  - by exists [].
  - split_and!; [done..|]. intros k. rewrite H3. simpl.
    rewrite !elem_of_cons, elem_of_nil.
    split; [intros [[?|[?|[]]]|?] | intros [?|[?|?]]]; auto.
Qed.

Lemma fetch_fields_keys field ids : ∀ d w d' w',
  (∀ id, id ∈ ids → id ∈ d.*1) →
  fetch_fields field ids d w = (Ok d', w') →
  d'.*1 = d.*1.
Proof.
  induction ids as [|id ids IH]; intros d w d' w' Hin Hrun.
  - cbn in Hrun. by injection Hrun as <- _.
  - cbn [fetch_fields] in Hrun. rewrite bind_run, http_get_run in Hrun.
    destruct (requests_get _ _ _) as [resp|e]; [|done].
    unfold lift at 1 in Hrun. rewrite bind_run in Hrun.
    destruct (field_output field resp) as [v|e]; [|done].
    assert ((dict_set id v d).*1 = d.*1) as Hkeys.
    { rewrite dict_set_keys, decide_True; [done|]. apply Hin. by left. }
    rewrite <- Hkeys. eapply IH; [|exact Hrun].
    intros id' Hid'. rewrite Hkeys. apply Hin. by right.
Qed.

(** X15.  On an answered batch the result is a proper dictionary: no key
    occurs twice (an identifier repeated in the input has one entry), the
    first two keys are [nct_ids] and [field], and the keys are these two and
    the identifiers of the batch, nothing else. *)
Theorem get_field_info_keys s field w :
  answered (requests_made w) (split_ids s) →
  ∃ d, get_field_info (PStr s) field w
       = (Ok (PDict d), count_requests (length (split_ids s)) w)
       ∧ NoDup d.*1
       ∧ (∃ rest, d.*1 = ["nct_ids"; "field"] ++ rest)
       ∧ ∀ k, k ∈ d.*1 ↔ k = "nct_ids" ∨ k = "field" ∨ k ∈ split_ids s.
Proof.
  intros Hans.
  destruct (fetch_fields_spec field (split_ids s)
              (initial_data_out (split_ids s) field) w Hans) as (d & Hrun & _).
  destruct (initial_data_out_keys field (split_ids s)) as (Hnd & Hfirst & Hall).
  assert (d.*1 = (initial_data_out (split_ids s) field).*1) as Hkeys.
  { eapply fetch_fields_keys; [|exact Hrun]. intros id Hid. apply Hall. auto. }
  exists d. rewrite Hkeys. split_and!; [|done..].
  unfold get_field_info. cbv zeta. by rewrite bind_run, Hrun.
Qed.


(** ** Binding the arguments of the three handlers *)

Lemma dict_get_is_Some k d : is_Some (dict_get k d) ↔ k ∈ d.*1.
Proof.
  induction d as [|[k' v] d IH]; simpl.
  - split; [by intros [? ?] | by intros ?%elem_of_nil].
  - destruct (decide (k = k')) as [->|Hne].
    + split; [intros _; by left | by eexists].
    + rewrite IH, elem_of_cons. split; [by right | by intros [?|?]].
Qed.

Lemma check_keywords_ok f d :
  check_keywords f d = Ok tt
  ↔ ∀ k, k ∈ d.*1 → k ≠ "self" ∧ k ∈ (parameters f).*1.
Proof.
  induction d as [|[k v] d IH]; cbn [check_keywords].
  - split; [|done]. by intros _ k ?%elem_of_nil.
  - destruct (decide (k = "self")) as [->|Hself].
    + split; [done|]. intros H. destruct (H "self") as [Hne _]; [by left|done].
    + destruct (decide (k ∈ (parameters f).*1)) as [Hin|Hout].
      * rewrite IH. split.
        -- intros H k' [->|Hk']%elem_of_cons; [done | by apply H].
        -- intros H k' Hk'. apply H. by right.
      * split; [done|]. intros H. destruct (H k) as [_ Hk]; [by left|done].
Qed.

Lemma missing_arguments_nil f d :
  missing_arguments f d = []
  ↔ ∀ p, (p, None) ∈ parameters f → p ∈ d.*1.
Proof.
  unfold missing_arguments. induction (parameters f) as [|[q dflt] params IH].
  - split; [|done]. by intros _ p ?%elem_of_nil.
  - cbn [List.filter]. unfold is_missing at 1. cbn [fst snd].
    destruct dflt as [v|].
    + rewrite IH. split.
      * intros H p [?|?]%elem_of_cons; [done | by apply H].
      * intros H p Hp. apply H. by right.
    + destruct (dict_get q d) as [v|] eqn:Hq.
      * rewrite IH. split.
        -- intros H p [[= ->]|?]%elem_of_cons; [|by apply H].
           apply dict_get_is_Some. by eexists.
        -- intros H p Hp. apply H. by right.
      * split; [done|]. intros H.
        assert (is_Some (dict_get q d)) as [v Hv]; [|congruence].
        apply dict_get_is_Some, H. by left.
Qed.

Lemma bind_kwargs_ok f d :
  (∃ env, bind_kwargs f (PDict d) = Ok env)
  ↔ (∀ k, k ∈ d.*1 → k ≠ "self" ∧ k ∈ (parameters f).*1)
    ∧ (∀ p, (p, None) ∈ parameters f → p ∈ d.*1).
Proof.
  rewrite <- check_keywords_ok, <- missing_arguments_nil. unfold bind_kwargs.
  destruct (check_keywords f d) as [[]|e]; cbn [mbind result_bind].
  - destruct (missing_arguments f d) as [|p missing].
    + split; [done | by eexists].
    + split; [by intros [env ?] | by intros [_ ?]].
  - split; [by intros [env ?] | by intros [? _]].
Qed.

(** X16.  [study_search] and [save_csv] take any selection of their own
    keyword arguments (every parameter has a default, the page size
    defaulting to 10); [get_field_info] needs both [nct_ids] and [field].
    Any other key in the arguments makes the call fail to bind. *)
Theorem handlers_binding d :
  ((∃ env, bind_kwargs study_search_method (PDict d) = Ok env)
   ↔ ∀ k, k ∈ d.*1 → k = "query_term" ∨ k = "pageSize")
  ∧ ((∃ env, bind_kwargs save_csv_method (PDict d) = Ok env)
     ↔ ∀ k, k ∈ d.*1 → k = "text" ∨ k = "title")
  ∧ ((∃ env, bind_kwargs get_field_info_method (PDict d) = Ok env)
     ↔ (∀ k, k ∈ d.*1 → k = "nct_ids" ∨ k = "field")
       ∧ "nct_ids" ∈ d.*1 ∧ "field" ∈ d.*1)
  ∧ (∀ env, bind_kwargs study_search_method (PDict d) = Ok env →
       env "query_term" = default PNone (dict_get "query_term" d)
       ∧ env "pageSize" = default (PInt 10) (dict_get "pageSize" d)).
Proof.
  rewrite !bind_kwargs_ok. cbn [parameters study_search_method save_csv_method
                                 get_field_info_method fmap list_fmap fst].
  split_and!.
  - split.
    + intros [H _] k Hk. destruct (H k Hk) as [_ Hin].
      by rewrite !elem_of_cons, elem_of_nil in Hin; destruct Hin as [?|[?|[]]]; auto.
    + intros H. split.
      * intros k Hk. destruct (H k Hk) as [->| ->]; (split; [done|]);
          rewrite !elem_of_cons; auto.
      * intros p Hp. rewrite !elem_of_cons, elem_of_nil in Hp.
        by destruct Hp as [?|[?|[]]].
  - split.
    + intros [H _] k Hk. destruct (H k Hk) as [_ Hin].
      by rewrite !elem_of_cons, elem_of_nil in Hin; destruct Hin as [?|[?|[]]]; auto.
    + intros H. split.
      * intros k Hk. destruct (H k Hk) as [->| ->]; (split; [done|]);
          rewrite !elem_of_cons; auto.
      * intros p Hp. rewrite !elem_of_cons, elem_of_nil in Hp.
        by destruct Hp as [?|[?|[]]].
  - split.
    + intros [H Hreq]. split_and!.
      * intros k Hk. destruct (H k Hk) as [_ Hin].
        by rewrite !elem_of_cons, elem_of_nil in Hin; destruct Hin as [?|[?|[]]]; auto.
      * apply Hreq. by left.
      * apply Hreq. right. by left.
    + intros (H & Hn & Hf). split.
      * intros k Hk. destruct (H k Hk) as [->| ->]; (split; [done|]);
          rewrite !elem_of_cons; auto.
      * intros p Hp. rewrite !elem_of_cons, elem_of_nil in Hp.
        destruct Hp as [[= ->]|[[= ->]|[]]]; done.
  - intros env Henv. unfold bind_kwargs in Henv.
    destruct (check_keywords study_search_method d) as [[]|e];
      cbn [mbind result_bind] in Henv; [|done].
    destruct (missing_arguments study_search_method d); [|done].
    injection Henv as <-. done.
Qed.

End App.


(** * StreamHandler *)

Lemma concat_tokens_cons token tokens :
  String.concat EmptyString (token :: tokens)
  = token +:+ String.concat EmptyString tokens.
Proof. destruct tokens; [by rewrite append_empty_r | done]. Qed.

(** X17.  Streaming the tokens of an answer through the callback leaves the
    buffer equal to the initial text followed by all the tokens in order,
    and hands the display one text per token: after the [k]-th token, the
    initial text followed by the first [k] tokens. *)
Theorem stream_renders tokens : ∀ self,
  StreamHandler.text (StreamHandler.stream self tokens)
  = StreamHandler.text self +:+ String.concat EmptyString tokens
  ∧ StreamHandler.container (StreamHandler.stream self tokens)
    = StreamHandler.container self
      ++ ((λ k, StreamHandler.text self
                +:+ String.concat EmptyString (take (S k) tokens))
          <$> seq 0 (length tokens)).
Proof.
  induction tokens as [|token tokens IH]; intros self.
  - simpl. by rewrite append_empty_r, app_nil_r.
  - unfold StreamHandler.stream in *. cbn [foldl].
    destruct (IH (StreamHandler.on_llm_new_token self token)) as [Htext Hshown].
    rewrite Htext, Hshown. cbn [StreamHandler.on_llm_new_token
                                 StreamHandler.text StreamHandler.container].
    split.
    + by rewrite concat_tokens_cons, append_assoc.
    + rewrite <- app_assoc. f_equal. cbn [length seq fmap list_fmap app take].
      f_equal. rewrite <- seq_shift, <- list_fmap_compose.
      change (map ?f ?l) with (f <$> l).
      apply list_fmap_ext. intros i k _. cbn [compose take].
      by rewrite concat_tokens_cons, append_assoc.
Qed.

(** * Examples: the theorems at concrete inputs *)

Lemma online_answered n ids : answered Mock.online n ids.
Proof.
  intros i id _. unfold Mock.online.
  repeat case_decide; eexists; (split; [reflexivity|]); simpl; intros; by eauto.
Qed.

Lemma offline_answered n ids : answered Mock.offline n ids.
Proof. intros i id _. eexists. split; [reflexivity|]. simpl. done. Qed.

Lemma sponsor_not_recognized : ¬ recognized (PStr "sponsor").
Proof.
  intros (f & Heq & Hin). injection Heq as <-.
  by apply (bool_decide_eq_false_1 ("sponsor" ∈ field_table.*1)).
Qed.

(** C1: the model asks for [lookup_trial], which is not registered. *)
Lemma run_turn_unknown_name_example :
  run_turn Mock.online Mock.repr Mock.writable Mock.accepts Mock.cwd Mock.loads Mock.dumps
    (Some "sk-test")
    [Mock.calls "lookup_trial" "{}"; Mock.says "Done."]
    "find asthma trials" Mock.greeted
  = (Raise (KeyError "lookup_trial"),
     with_messages [ChatMessage "user" "find asthma trials"] Mock.greeted).
Proof.
  apply (run_turn_unknown_name Mock.online Mock.repr Mock.writable Mock.accepts Mock.cwd
           Mock.loads Mock.dumps (Some "sk-test") "find asthma trials"
           {| name := "lookup_trial"; arguments := "{}" |}).
  - reflexivity.
  - vm_compute. reflexivity.
Defined.

(** C2: the model sends an opening brace as the arguments of [study_search]. *)
Lemma run_turn_unparsable_arguments_example :
  run_turn Mock.online Mock.repr Mock.writable Mock.accepts Mock.cwd Mock.loads Mock.dumps
    (Some "sk-test")
    [Mock.calls "study_search" "{"; Mock.says "Done."]
    "find asthma trials" Mock.greeted
  = (Raise (LibraryError "JSONDecodeError"
              "Expecting property name enclosed in double quotes: line 1 column 2 (char 1)"),
     with_messages [ChatMessage "user" "find asthma trials"] Mock.greeted).
Proof.
  apply (run_turn_unparsable_arguments Mock.online Mock.repr Mock.writable Mock.accepts Mock.cwd
           Mock.loads Mock.dumps (Some "sk-test") "find asthma trials"
           {| name := "study_search"; arguments := "{" |} EmptyString
           [Mock.says "Done."]
           (study_search_method Mock.online)).
  - reflexivity.
  - vm_compute. reflexivity.
  - reflexivity.
Defined.

(** C3: an unsupported field on a batch whose records are all found. *)
Lemma get_field_info_unsupported_example :
  ∃ d, get_field_info Mock.online Mock.repr (PStr "NCT1, NCT2") (PStr "sponsor") Mock.fresh
       = (Ok (PDict d), count_requests 2 Mock.fresh)
       ∧ dict_get "NCT2" d
         = Some (PStr (invalid_field_message Mock.repr (PStr "sponsor"))).
Proof.
  apply (get_field_info_unsupported Mock.online Mock.repr "NCT1, NCT2"
           (PStr "sponsor") Mock.fresh "NCT2").
  - exact sponsor_not_recognized.
  - apply online_answered.
  - vm_compute. by repeat constructor.
  - intros [|[|i]] resp Hi Hget; vm_compute in Hi, Hget; by simplify_eq.
Defined.

(** C3 as first stated fails where a record is not found: [NCT404] is in
    the batch, the field is unsupported, and its entry is the status
    message, not the enumeration of the valid fields. *)
Lemma get_field_info_unsupported_not_found :
  "NCT404" ∈ split_ids "NCT1,NCT404"
  ∧ ¬ recognized (PStr "sponsor")
  ∧ get_field_info Mock.online Mock.repr (PStr "NCT1,NCT404") (PStr "sponsor") Mock.fresh
    = (Ok (PDict
             [("nct_ids", PList [PStr "NCT1"; PStr "NCT404"]);
              ("field", PStr "sponsor");
              ("NCT1", PStr (invalid_field_message Mock.repr (PStr "sponsor")));
              ("NCT404", PStr "Request failed with status code 404")]),
       count_requests 2 Mock.fresh)
  ∧ PStr "Request failed with status code 404"
    ≠ PStr (invalid_field_message Mock.repr (PStr "sponsor")).
Proof.
  split_and!.
  - vm_compute. by repeat constructor.
  - exact sponsor_not_recognized.
  - vm_compute. reflexivity.
  - vm_compute. discriminate.
Qed.

(** C4: the model asks for [study_search] with no arguments, then answers. *)
Lemma run_turn_round_trip_example :
  ∃ w', run_turn Mock.online Mock.repr Mock.writable Mock.accepts Mock.cwd Mock.loads Mock.dumps
          (Some "sk-test")
          [Mock.calls "study_search" "{}"; Mock.says "I found three studies."]
          "find asthma trials" Mock.greeted
        = (Ok tt, w')
        ∧ messages w'
          = [ChatMessage "assistant" "How can I help you?";
             ChatMessage "user" "find asthma trials";
             ChatMessage "system" "Calling function study_search with arguments: {}";
             FunctionMessage "study_search"
               (Mock.dumps
                  (PDict
                     [("Query Term", PNone);
                      ("Page Size", PInt 10);
                      ("Number of Results", PInt 3);
                      ("Study Name",
                       PList [PStr "Aspirin in Asthma"; PStr "Inhaler Trial";
                              PStr "Sleep and Exhaustion"]);
                      ("NCT_ID", PList [PStr "NCT1"; PStr "NCT2"; PStr "NCT3"])]));
             ChatMessage "assistant" "I found three studies."].
Proof.
  apply (run_turn_round_trip Mock.online Mock.repr Mock.writable Mock.accepts Mock.cwd
           Mock.loads Mock.dumps (Some "sk-test") "find asthma trials"
           {| name := "study_search"; arguments := "{}" |} EmptyString
           "I found three studies." []
           (study_search_method Mock.online) (PDict []) Mock.greeted).
  - reflexivity.
  - vm_compute. reflexivity.
  - reflexivity.
Defined.

(** C4 as first stated fails without an API key: the script stops after the
    prompt is recorded, and the model is never called. *)
Lemma run_turn_without_key :
  run_turn Mock.online Mock.repr Mock.writable Mock.accepts Mock.cwd Mock.loads Mock.dumps
    None
    [Mock.calls "study_search" "{}"; Mock.says "I found three studies."]
    "find asthma trials" Mock.greeted
  = (Ok tt, with_messages [ChatMessage "user" "find asthma trials"] Mock.greeted)
  ∧ messages (with_messages [ChatMessage "user" "find asthma trials"] Mock.greeted)
    = [ChatMessage "assistant" "How can I help you?";
       ChatMessage "user" "find asthma trials"]
  ∧ ∀ notice result answer,
      messages (with_messages [ChatMessage "user" "find asthma trials"] Mock.greeted)
      ≠ messages Mock.greeted
        ++ [ChatMessage "user" "find asthma trials"; notice; result; answer].
Proof. split_and!; [reflexivity..|]. intros notice result answer. discriminate. Qed.

(** C5: the search endpoint answers 200 with three studies. *)
Lemma study_search_200_example :
  study_search Mock.online (PStr "asthma") (PInt 10) Mock.fresh
  = (Ok (PDict
           [("Query Term", PStr "asthma");
            ("Page Size", PInt 10);
            ("Number of Results", PInt 3);
            ("Study Name",
             PList [PStr "Aspirin in Asthma"; PStr "Inhaler Trial";
                    PStr "Sleep and Exhaustion"]);
            ("NCT_ID", PList [PStr "NCT1"; PStr "NCT2"; PStr "NCT3"])]),
     count_requests 1 Mock.fresh).
Proof.
  apply (study_search_200 Mock.online (PStr "asthma") (PInt 10) Mock.fresh
           {| status_code := 200;
              json := Ok (PDict [("studies", PList Mock.three_studies)]) |}
           (PDict [("studies", PList Mock.three_studies)])
           Mock.three_studies
           [PStr "Aspirin in Asthma"; PStr "Inhaler Trial"; PStr "Sleep and Exhaustion"]
           [PStr "NCT1"; PStr "NCT2"; PStr "NCT3"]).
  - reflexivity.
  - reflexivity.
  - reflexivity.
  - reflexivity.
  - repeat constructor.
  - repeat constructor.
Defined.

(** C6: the record of [NCT1] has no design module. *)
Lemma get_field_info_missing_path_example :
  ∃ d, get_field_info Mock.online Mock.repr (PStr "NCT1, NCT2") (PStr "studyDesign")
         Mock.fresh
       = (Ok (PDict d), count_requests 2 Mock.fresh)
       ∧ dict_get "NCT1" d = Some (PStr "No study design found").
Proof.
  apply (get_field_info_missing_path Mock.online Mock.repr "NCT1, NCT2"
           "studyDesign" ["protocolSection"; "designModule"]
           "No study design found" Mock.fresh "NCT1").
  - vm_compute. by repeat constructor.
  - apply online_answered.
  - vm_compute. by repeat constructor.
  - intros [|[|i]] Hi; vm_compute in Hi; [|discriminate..].
    eexists _, _. split_and!; [reflexivity..|].
    intros [v Hv]. vm_compute in Hv. discriminate.
Defined.

(** C8: the search endpoint answers 503. *)
Lemma study_search_non_200_example :
  ∃ msg,
    study_search Mock.offline (PStr "asthma") (PInt 10) Mock.fresh
    = (Ok (PStr msg), count_requests 1 Mock.fresh)
    ∧ msg = "Request failed with status code 503"
    ∧ Str.contains "503" msg
    ∧ ∀ k, ∃ e, getitem (PStr msg) k = Raise e.
Proof.
  apply (study_search_non_200 Mock.offline (PStr "asthma") (PInt 10) Mock.fresh
           {| status_code := 503; json := Raise Mock.not_json |}).
  - reflexivity.
  - simpl. lia.
Defined.


(** C10: the batch contains the identifier [field], which no record has. *)
Lemma get_field_info_metadata_example :
  ∃ d, get_field_info Mock.online Mock.repr (PStr "NCT1, field") (PStr "studyDesign")
         Mock.fresh
       = (Ok (PDict d), count_requests 2 Mock.fresh)
       ∧ is_Some (dict_get "nct_ids" d)
       ∧ is_Some (dict_get "field" d)
       ∧ ("nct_ids" ∉ split_ids "NCT1, field" →
          dict_get "nct_ids" d = Some (PList [PStr "NCT1"; PStr "field"]))
       ∧ ("field" ∉ split_ids "NCT1, field" →
          dict_get "field" d = Some (PStr "studyDesign"))
       ∧ (∀ id, id ∈ split_ids "NCT1, field" →
            ∃ v, last_output Mock.online Mock.repr (PStr "studyDesign") 0
                   (split_ids "NCT1, field") id v
                 ∧ dict_get id d = Some v).
Proof.
  apply (get_field_info_metadata Mock.online Mock.repr "NCT1, field"
           (PStr "studyDesign") Mock.fresh).
  apply online_answered.
Defined.

Example get_field_info_field_overwritten :
  get_field_info Mock.online Mock.repr (PStr "NCT1, field") (PStr "studyDesign") Mock.fresh
  = (Ok (PDict
           [("nct_ids", PList [PStr "NCT1"; PStr "field"]);
            ("field", PStr "Request failed with status code 404");
            ("NCT1", PStr "No study design found")]),
     count_requests 2 Mock.fresh).
Proof. vm_compute. reflexivity. Qed.

(** Further runs of the model. *)

Example save_csv_read_only :
  save_csv Mock.repr Mock.read_only Mock.accepts Mock.cwd (PStr "a,b") (PStr "out") Mock.fresh
  = (Ok (PStr "Error saving file: [Errno 13] Permission denied: 'out.csv'"),
     Mock.fresh).
Proof. reflexivity. Qed.

Example save_csv_overwrites :
  ∀ r1 w1 r2 w2,
    save_csv Mock.repr Mock.writable Mock.accepts Mock.cwd (PStr "a,b") (PStr "out") Mock.fresh
    = (r1, w1) →
    save_csv Mock.repr Mock.writable Mock.accepts Mock.cwd (PStr "1,2") (PStr "out") w1
    = (r2, w2) →
    files w2 !! "out.csv" = Some "1,2".
Proof.
  intros r1 w1 r2 w2.
  by apply (save_csv_twice Mock.repr Mock.writable Mock.accepts Mock.cwd "a,b" "1,2" "out").
Qed.

Example save_csv_without_text :
  save_csv Mock.repr Mock.writable Mock.accepts Mock.cwd PNone (PStr "out") Mock.fresh
  = (Ok (PStr "Error saving file: write() argument must be str, not None"),
     with_file "out.csv" EmptyString Mock.fresh).
Proof. reflexivity. Qed.

Example get_field_info_without_arguments :
  run_turn Mock.online Mock.repr Mock.writable Mock.accepts Mock.cwd Mock.loads Mock.dumps
    (Some "sk-test")
    [Mock.calls "get_field_info" "{}"; Mock.says "Which study?"]
    "show me the design" Mock.fresh
  = (Ok tt,
     with_messages
       [ChatMessage "user" "show me the design";
        ChatMessage "system" "Calling function get_field_info with arguments: {}";
        FunctionMessage "get_field_info"
          (Mock.dumps
             (PStr "Function call failed with error: ClinicalFunctions.get_field_info() missing 2 required positional arguments: 'nct_ids' and 'field'"));
        ChatMessage "assistant" "Which study?"]
       Mock.fresh).
Proof. vm_compute. reflexivity. Qed.

(** Further theorems at concrete inputs. *)

(** X2: two rounds, a search and a save without a title, then the answer. *)
Lemma run_turn_rounds_example :
  ∃ w' rounds,
    run_turn Mock.online Mock.repr Mock.writable Mock.accepts Mock.cwd Mock.loads Mock.dumps
      (Some "sk-test")
      ([Mock.calls "study_search" "{}"; Mock.calls "save_csv" "{}"]
       ++ Mock.says "Nothing was saved." :: [])
      "find asthma trials and save them" Mock.greeted
    = (Ok tt, w')
    ∧ messages w'
      = messages Mock.greeted
        ++ ChatMessage "user" "find asthma trials and save them"
        :: rounds ++ [ChatMessage "assistant" "Nothing was saved."]
    ∧ length rounds = 4%nat
    ∧ turn_tail Mock.online Mock.repr Mock.writable Mock.accepts Mock.cwd Mock.dumps rounds.
Proof.
  apply (run_turn_rounds Mock.online Mock.repr Mock.writable Mock.accepts Mock.cwd
           Mock.loads Mock.dumps (Some "sk-test")
           [Mock.calls "study_search" "{}"; Mock.calls "save_csv" "{}"]
           (Mock.says "Nothing was saved.") []
           "find asthma trials and save them" Mock.greeted).
  - reflexivity.
  - repeat constructor;
      (eexists _, (PDict []); split_and!; [reflexivity| |reflexivity]);
      eexists; vm_compute; reflexivity.
  - reflexivity.
Defined.

(** X3: [get_field_info] called without its two arguments. *)
Lemma dispatch_round_call_failure_example :
  ∃ w',
    dispatch_round Mock.online Mock.repr Mock.writable Mock.accepts Mock.cwd Mock.loads Mock.dumps
      {| name := "get_field_info"; arguments := "{}" |} Mock.greeted
    = (Ok tt, w')
    ∧ messages w'
      = messages Mock.greeted
        ++ [call_notice Mock.repr "get_field_info" (PDict []);
            FunctionMessage "get_field_info"
              (Mock.dumps
                 (PStr ("Function call failed with error: "
                        +:+ "ClinicalFunctions.get_field_info() missing 2 required positional arguments: 'nct_ids' and 'field'")))].
Proof.
  apply (dispatch_round_call_failure Mock.online Mock.repr Mock.writable Mock.accepts Mock.cwd
           Mock.loads Mock.dumps
           {| name := "get_field_info"; arguments := "{}" |}
           (get_field_info_method Mock.online Mock.repr) (PDict [])
           (TypeError "ClinicalFunctions.get_field_info() missing 2 required positional arguments: 'nct_ids' and 'field'")
           Mock.greeted).
  - vm_compute. reflexivity.
  - reflexivity.
  - reflexivity.
Defined.

(** X8: saving without a text over a file that held two lines. *)
Lemma save_csv_truncates_example :
  ∃ msg,
    save_csv Mock.repr Mock.writable Mock.accepts Mock.cwd PNone (PStr "out")
      (with_file "out.csv" "a,b" Mock.fresh)
    = (Ok (PStr ("Error saving file: " +:+ msg)),
       with_file "out.csv" EmptyString (with_file "out.csv" "a,b" Mock.fresh))
    ∧ files (with_file "out.csv" EmptyString (with_file "out.csv" "a,b" Mock.fresh))
        !! "out.csv"
      = Some EmptyString.
Proof.
  apply (save_csv_truncates Mock.repr Mock.writable Mock.accepts Mock.cwd PNone "out"
           (with_file "out.csv" "a,b" Mock.fresh)).
  - reflexivity.
  - intros s. discriminate.
Defined.

(** X9: the second of three entries has no brief title. *)
Lemma study_search_bad_entry_example :
  study_search Mock.ragged (PStr "asthma") (PInt 10) Mock.fresh
  = (Raise (KeyError "briefTitle"), count_requests 1 Mock.fresh).
Proof.
  apply (study_search_bad_entry Mock.ragged (PStr "asthma") (PInt 10) Mock.fresh
           {| status_code := 200;
              json := Ok (PDict [("studies",
                                  PList [Mock.study "Aspirin in Asthma" "NCT1";
                                         Mock.untitled "NCT2";
                                         Mock.study "Sleep and Exhaustion" "NCT3"])]) |}
           (PDict [("studies",
                    PList [Mock.study "Aspirin in Asthma" "NCT1";
                           Mock.untitled "NCT2";
                           Mock.study "Sleep and Exhaustion" "NCT3"])])
           [Mock.study "Aspirin in Asthma" "NCT1"]
           (Mock.untitled "NCT2")
           [Mock.study "Sleep and Exhaustion" "NCT3"]).
  - reflexivity.
  - reflexivity.
  - reflexivity.
  - reflexivity.
  - repeat constructor. by eexists _, _.
  - left. reflexivity.
Defined.

(** X10: a 200 answer that reports an error. *)
Lemma study_search_no_studies_example :
  study_search Mock.apologetic (PStr "asthma") (PInt 10) Mock.fresh
  = (Raise (KeyError "studies"), count_requests 1 Mock.fresh).
Proof.
  apply (study_search_no_studies Mock.apologetic (PStr "asthma") (PInt 10) Mock.fresh
           {| status_code := 200;
              json := Ok (PDict [("message", PStr "query not understood")]) |}
           [("message", PStr "query not understood")]); reflexivity.
Defined.

Lemma last_of_two (a b : string) : a ≠ b → last_index [a; b] b 1.
Proof.
  intros Hne. split; [done|]. intros [|[|j]] Hj; [lia..|done].
Qed.

(** X11: [NCT404] is not found, [NCT1] is. *)
Lemma get_field_info_status_message_example :
  ∃ d, get_field_info Mock.online Mock.repr (PStr "NCT1,NCT404") (PStr "studyDesign")
         Mock.fresh
       = (Ok (PDict d), count_requests 2 Mock.fresh)
       ∧ dict_get "NCT404" d = Some (PStr "Request failed with status code 404").
Proof.
  apply (get_field_info_status_message Mock.online Mock.repr "NCT1,NCT404"
           (PStr "studyDesign") Mock.fresh "NCT404" 1
           {| status_code := 404; json := Raise Mock.not_json |}).
  - apply online_answered.
  - apply (last_of_two "NCT1" "NCT404"). discriminate.
  - reflexivity.
  - simpl. lia.
Defined.

(** X12: the design module of a record that has one. *)
Lemma get_field_info_present_path_example :
  ∃ d, get_field_info Mock.designed Mock.repr (PStr "NCT1,NCT2") (PStr "studyDesign")
         Mock.fresh
       = (Ok (PDict d), count_requests 2 Mock.fresh)
       ∧ dict_get "NCT2" d = Some Mock.design.
Proof.
  apply (get_field_info_present_path Mock.designed Mock.repr "NCT1,NCT2"
           "studyDesign" ["protocolSection"; "designModule"] "No study design found"
           Mock.fresh "NCT2" 1
           {| status_code := 200;
              json := Ok (PDict [("protocolSection",
                                  PDict [("designModule", Mock.design)])]) |}
           (PDict [("protocolSection", PDict [("designModule", Mock.design)])])).
  - vm_compute. by repeat constructor.
  - intros i id _. eexists. split; [reflexivity|]. intros _. by eexists.
  - apply (last_of_two "NCT1" "NCT2"). discriminate.
  - reflexivity.
  - reflexivity.
  - reflexivity.
  - reflexivity.
Defined.

(** X13: the network is down at the first request. *)
Lemma get_field_info_aborts_example :
  get_field_info Mock.unreachable Mock.repr (PStr "NCT1,NCT2") (PStr "studyDesign")
    Mock.fresh
  = (Raise Mock.no_route, count_requests 1 Mock.fresh).
Proof.
  apply (get_field_info_aborts Mock.unreachable Mock.repr "NCT1,NCT2"
           (PStr "studyDesign") Mock.fresh 0 "NCT1").
  - reflexivity.
  - intros i id Hi. by destruct i.
  - left. reflexivity.
Defined.

(** X15: an identifier given twice has one entry. *)
Lemma get_field_info_keys_example :
  ∃ d, get_field_info Mock.online Mock.repr (PStr "NCT1, NCT2, NCT1") (PStr "studyDesign")
         Mock.fresh
       = (Ok (PDict d), count_requests 3 Mock.fresh)
       ∧ NoDup d.*1
       ∧ (∃ rest, d.*1 = ["nct_ids"; "field"] ++ rest)
       ∧ ∀ k, k ∈ d.*1
              ↔ k = "nct_ids" ∨ k = "field" ∨ k ∈ split_ids "NCT1, NCT2, NCT1".
Proof.
  apply (get_field_info_keys Mock.online Mock.repr "NCT1, NCT2, NCT1"
           (PStr "studyDesign") Mock.fresh).
  apply online_answered.
Defined.

(** X19: the identifiers of ["NCT1, NCT 2"] hold no space and no comma. *)
Lemma split_ids_clean_example :
  Forall (λ c, c ≠ " "%char ∧ c ≠ ","%char) (list_ascii_of_string "NCT2").
Proof.
  apply (split_ids_clean "NCT1, NCT 2" "NCT2").
  vm_compute. by repeat constructor.
Defined.

(** C6 as first stated fails when another request of the batch breaks: the
    record of [NCT1] is answered 200 and has no design module, the body of
    the answer for [NCT2] is not JSON, and the call raises instead of
    returning the fallback text for [NCT1]. *)
Lemma get_field_info_missing_path_batch_raises :
  ("studyDesign", (["protocolSection"; "designModule"], "No study design found"))
    ∈ field_table
  ∧ split_ids "NCT1,NCT2" = ["NCT1"; "NCT2"]
  ∧ Mock.garbled 0 (record_url "NCT1") None
    = Ok {| status_code := 200;
            json := Ok (Mock.study "Aspirin in Asthma" "NCT1") |}
  ∧ ¬ has_path (Mock.study "Aspirin in Asthma" "NCT1")
        ["protocolSection"; "designModule"]
  ∧ get_field_info Mock.garbled Mock.repr (PStr "NCT1,NCT2") (PStr "studyDesign")
      Mock.fresh
    = (Raise Mock.not_json, count_requests 2 Mock.fresh).
Proof.
  split_and!.
  - vm_compute. by repeat constructor.
  - reflexivity.
  - reflexivity.
  - intros [v Hv]. vm_compute in Hv. discriminate.
  - vm_compute. reflexivity.
Qed.

Example save_csv_disk_full :
  save_csv Mock.repr Mock.writable Mock.full_disk Mock.cwd (PStr "a,b") (PStr "out")
    (with_file "out.csv" "1,2" Mock.fresh)
  = (Ok (PStr "Error saving file: [Errno 28] No space left on device"),
     with_file "out.csv" EmptyString Mock.fresh).
Proof. vm_compute. reflexivity. Qed.
